(** * Education ETL pipeline (building_module1.py): shallow embedding

    The pipeline pages through an ArcGIS MapServer layer ([extract_layer]),
    normalises the resulting GeoDataFrame ([transform]), concatenates the
    per-layer frames, and writes GeoJSON files plus one GeoPackage
    ([load_outputs]); [main] strings these together.

    Modelling conventions.
    - A GeoDataFrame is a rectangular table: the labels of its attribute
      columns, its rows (the active geometry plus one cell per attribute
      column) and an optional CRS.  The geometry column keeps its label
      ["geometry"], which the column renaming leaves alone
      ([normalize_key_geometry]).
    - A label is a byte string.  [str_lower] lower-cases the letters A-Z,
      which is what Python does to an ASCII label; [transform_with] takes
      the lower-casing of labels of any alphabet as a parameter, and
      [transform] is its instance for [str_lower].
    - Coordinates are abstract: [Geometry] and the projection [reproject] are
      section variables, so nothing below depends on floating point.
    - The remote service is a state machine [http_get]; the loop of
      [extract_layer] is unrolled with fuel and reports [OutOfFuel] when the
      service never sends an empty page within the given number of requests.
    - A request either brings a decoded body or fails with an HTTP status
      ([raise_for_status]); timeouts, connection errors and bodies that are
      not JSON are outside the model.
    - [load_outputs] is the loop in which every [to_file] call succeeds;
      [load_outputs_io] and [main_io] are the loop and the run with writes
      that can fail.
    - [print] calls are dropped. *)

From Stdlib Require Import List String Ascii Arith Bool Lia ZArith.
Import ListNotations.

Set Implicit Arguments.
Open Scope string_scope.
Open Scope list_scope.
Open Scope nat_scope.

(* ===================================================================== *)
(** * Strings *)

Definition is_upper (c : ascii) : bool :=
  let n := nat_of_ascii c in (65 <=? n) && (n <=? 90).

Definition lower_char (c : ascii) : ascii :=
  if is_upper c then ascii_of_nat (nat_of_ascii c + 32) else c.

Fixpoint str_map (f : ascii -> ascii) (s : string) : string :=
  match s with
  | EmptyString => EmptyString
  | String c s' => String (f c) (str_map f s')
  end.

(** [Index.str.lower()] on one label. *)
Definition str_lower (s : string) : string := str_map lower_char s.

Definition replace_char (old new c : ascii) : ascii :=
  if Ascii.eqb c old then new else c.

(** [Index.str.replace(old, new)] on one label, for the one-character
    patterns the pipeline uses. *)
Definition str_replace (old new : ascii) (s : string) : string :=
  str_map (replace_char old new) s.

(** The chain [.str.lower().str.replace(" ", "_").str.replace("-", "_")]. *)
Definition normalize_key (s : string) : string :=
  str_replace "-"%char "_"%char (str_replace " "%char "_"%char (str_lower s)).

(** What the chain does to one character. *)
Definition normalize_char (c : ascii) : ascii :=
  replace_char "-"%char "_"%char (replace_char " "%char "_"%char (lower_char c)).

Fixpoint nodupb (l : list string) : bool :=
  match l with
  | [] => true
  | x :: l' => negb (existsb (String.eqb x) l') && nodupb l'
  end.

(* ===================================================================== *)
(** * CONFIG *)

Inductive CRS : Type :=
| EPSG (code : nat)
| OtherCRS (definition : string).

Definition crs_eqb (a b : CRS) : bool :=
  match a, b with
  | EPSG m, EPSG n => Nat.eqb m n
  | OtherCRS s, OtherCRS t => String.eqb s t
  | _, _ => false
  end.

Definition EDUCATION_LAYERS : list (string * nat) :=
  [ ("schools", 76); ("colleges_universities", 74);
    ("technical_trade_schools", 75) ].

Definition OUTPUT_DIR : string := "education_etl_output".

(** ["EPSG:4326"]; [set_crs(epsg=4326)] denotes the same reference. *)
Definition CRS_OUT : CRS := EPSG 4326.

Definition PAGE_SIZE : nat := 2000.

(* ===================================================================== *)
(** * Data model *)

(** JSON scalars held in attribute cells; [VNull] is also pandas' NaN. *)
Inductive Value : Type :=
| VNull
| VBool (b : bool)
| VNum (n : Z)
| VStr (s : string).

(** Exceptions the pipeline can end with. *)
Inductive Exn : Type :=
| HTTPError (status : nat)            (* response.raise_for_status() *)
| RuntimeError_no_data (layer_id : nat)
                                      (* "No data returned for layer ..." *)
| ValueError_no_objects               (* pd.concat of nothing *)
| InvalidIndexError                   (* pd.concat cannot align labels *)
| FileExistsError (path : string).    (* mkdir over a regular file *)

Inductive Outcome (A : Type) : Type :=
| Returns (a : A)
| Raises (e : Exn)
| OutOfFuel.

Arguments Raises {A} e.
Arguments OutOfFuel {A}.

Section Frames.

Variable Geometry : Type.

(** One GeoJSON feature of a response: [feature["geometry"]] (JSON null is
    [None]) and the parsed [feature["properties"]] object. *)
Record Feature : Type := mkFeature {
  f_geometry : option Geometry;
  f_properties : list (string * Value)
}.

Record Row : Type := mkRow {
  geometry : option Geometry;
  cells : list Value
}.

Record GeoDataFrame : Type := mkGDF {
  columns : list string;
  rows : list Row;
  crs : option CRS
}.

(** The decoded body of one query response. *)
Record QueryData : Type := mkData {
  d_features : option (list Feature);   (* absent key: None *)
  d_crs : option CRS
}.

Inductive HttpResult : Type :=
| HttpOk (data : QueryData)
| HttpFail (status : nat).

(** ** Lookup in a parsed JSON object and in a labelled row *)

Fixpoint lookup (k : string) (kvs : list (string * Value)) : option Value :=
  match kvs with
  | [] => None
  | (k', v) :: kvs' => if String.eqb k k' then Some v else lookup k kvs'
  end.

Definition lookup_or_null (k : string) (kvs : list (string * Value)) : Value :=
  match lookup k kvs with Some v => v | None => VNull end.

(** Labels in order of first appearance. *)
Fixpoint union_labels (seen : list string) (ks : list string) : list string :=
  match ks with
  | [] => seen
  | k :: ks' =>
      if existsb (String.eqb k) seen then union_labels seen ks'
      else union_labels (seen ++ [k]) ks'
  end.

(** ** [GeoDataFrame.from_features]

    One row per feature, in order; the columns are the property keys in
    order of first appearance, a missing property is NaN. *)
Definition feature_labels (features : list Feature) : list string :=
  union_labels [] (flat_map (fun f => map fst (f_properties f)) features).

Definition row_of_feature (cols : list string) (f : Feature) : Row :=
  {| geometry := f_geometry f;
     cells := map (fun k => lookup_or_null k (f_properties f)) cols |}.

Definition from_features (features : list Feature) (c : option CRS)
  : GeoDataFrame :=
  let cols := feature_labels features in
  {| columns := cols;
     rows := map (row_of_feature cols) features;
     crs := c |}.

(** A frame is rectangular: every row has one cell per column. *)
Definition rectangular (gdf : GeoDataFrame) : Prop :=
  Forall (fun r => List.length (cells r) = List.length (columns gdf)) (rows gdf).

(* =================================================================== *)
(** * EXTRACT *)

Section Extract.

(** The remote feature service: one GET of
    [{BASE_URL}/{layer_id}/query] with [resultOffset] and
    [resultRecordCount], answered from the service's current state. *)
Variable Service : Type.
Variable http_get :
  forall (layer_id offset count : nat), Service -> HttpResult * Service.

(** The [while True] loop of [extract_layer], with the page size a
    parameter.  It returns the accumulated features together with the
    last decoded response, which the caller reads the CRS from. *)
Fixpoint extract_loop (page_size fuel layer_id : nat)
         (features : list Feature) (offset : nat) (s : Service)
  : Outcome (list Feature * QueryData) * Service :=
  match fuel with
  | 0 => (OutOfFuel, s)
  | S fuel' =>
      let (response, s1) := http_get layer_id offset page_size s in
      match response with
      | HttpFail status => (Raises (HTTPError status), s1)
      | HttpOk data =>
          match d_features data with
          | None | Some [] => (Returns (features, data), s1)
          | Some batch =>
              extract_loop page_size fuel' layer_id
                           (features ++ batch) (offset + page_size) s1
          end
      end
  end.

Definition extract_layer_paged (page_size fuel layer_id : nat) (s : Service)
  : Outcome GeoDataFrame * Service :=
  match extract_loop page_size fuel layer_id [] 0 s with
  | (Returns (features, data), s') =>
      match features with
      | [] => (Raises (RuntimeError_no_data layer_id), s')
      | _ => (Returns (from_features features (d_crs data)), s')
      end
  | (Raises e, s') => (Raises e, s')
  | (OutOfFuel, s') => (OutOfFuel, s')
  end.

Definition extract_layer (fuel layer_id : nat) (s : Service)
  : Outcome GeoDataFrame * Service :=
  extract_layer_paged PAGE_SIZE fuel layer_id s.

End Extract.


(* =================================================================== *)
(** * TRANSFORM *)

Section Transform.

(** The coordinate transformation behind [to_crs] (pyproj): source
    reference, target reference, geometry. *)
Variable reproject : CRS -> CRS -> Geometry -> Geometry.

Definition notnull (r : Row) : bool :=
  match geometry r with Some _ => true | None => false end.

(** [gdf[gdf.geometry.notnull()].copy()] *)
Definition drop_null_geometry (gdf : GeoDataFrame) : GeoDataFrame :=
  {| columns := columns gdf;
     rows := filter notnull (rows gdf);
     crs := crs gdf |}.

(** [gdf.set_crs(..., inplace=True)]: only the declared reference
    changes. *)
Definition set_crs (c : CRS) (gdf : GeoDataFrame) : GeoDataFrame :=
  {| columns := columns gdf; rows := rows gdf; crs := Some c |}.

Definition reproject_row (src dst : CRS) (r : Row) : Row :=
  {| geometry := option_map (reproject src dst) (geometry r);
     cells := cells r |}.

(** [gdf.to_crs(dst)] on a frame whose reference is [src]; geopandas
    hands the frame back untouched when both references are the same. *)
Definition to_crs (src dst : CRS) (gdf : GeoDataFrame) : GeoDataFrame :=
  if crs_eqb src dst then gdf
  else {| columns := columns gdf;
          rows := map (reproject_row src dst) (rows gdf);
          crs := Some dst |}.

(** [gdf.columns = labels] *)
Definition set_columns (labels : list string) (gdf : GeoDataFrame)
  : GeoDataFrame :=
  {| columns := labels; rows := rows gdf; crs := crs gdf |}.

(** Cells of one row after [gdf[key] = v] when [key] is already a label:
    every column carrying the label takes the value. *)
Fixpoint assign_cells (key : string) (v : Value)
         (cols : list string) (cs : list Value) : list Value :=
  match cols, cs with
  | c :: cols', x :: cs' =>
      (if String.eqb c key then v else x) :: assign_cells key v cols' cs'
  | _, _ => cs
  end.

(** [gdf[key] = v] for a scalar [v]: overwrite the columns labelled
    [key], or append a new last column. *)
Definition setitem_columns (key : string) (cols : list string)
  : list string :=
  if existsb (String.eqb key) cols then cols else cols ++ [key].

Definition setitem_row (key : string) (v : Value) (cols : list string)
           (r : Row) : Row :=
  {| geometry := geometry r;
     cells := if existsb (String.eqb key) cols
              then assign_cells key v cols (cells r)
              else cells r ++ [v] |}.

Definition setitem (key : string) (v : Value) (gdf : GeoDataFrame)
  : GeoDataFrame :=
  {| columns := setitem_columns key (columns gdf);
     rows := map (setitem_row key v (columns gdf)) (rows gdf);
     crs := crs gdf |}.

Definition transform (gdf : GeoDataFrame) (layer_name : string)
  : GeoDataFrame :=
  (* Ensure geometry exists *)
  let gdf := drop_null_geometry gdf in
  (* Normalize CRS *)
  let gdf := match crs gdf with
             | None => set_crs (EPSG 4326) gdf
             | Some src => to_crs src CRS_OUT gdf
             end in
  (* Standardize column names *)
  let gdf := set_columns (map normalize_key (columns gdf)) gdf in
  (* Add metadata *)
  let gdf := setitem "facility_category" (VStr "education") gdf in
  let gdf := setitem "facility_type" (VStr layer_name) gdf in
  gdf.

(** What [transform] does to one row it keeps, in a frame with columns
    [cols] and reference [c]. *)
Definition transform_row (cols : list string) (c : option CRS)
           (layer_name : string) (r : Row) : Row :=
  let r := match c with
           | None => r
           | Some src => if crs_eqb src CRS_OUT then r
                         else reproject_row src CRS_OUT r
           end in
  let cols := map normalize_key cols in
  let r := setitem_row "facility_category" (VStr "education") cols r in
  setitem_row "facility_type" (VStr layer_name)
              (setitem_columns "facility_category" cols) r.

(* ================================================================= *)
(** * Combined dataset *)

(** The value a row holds under a label (first column carrying it). *)
Definition field (cols : list string) (r : Row) (k : string)
  : option Value :=
  lookup k (combine cols (cells r)).

(** A row re-laid on the labels [new_cols]; a label the row does not
    have becomes NaN. *)
Definition reindex (old_cols new_cols : list string) (r : Row) : Row :=
  {| geometry := geometry r;
     cells := map (fun k => lookup_or_null k (combine old_cols (cells r)))
                  new_cols |}.

(** A row of an input frame paired with the labels of its frame. *)
Definition labelled_rows (gdf : GeoDataFrame)
  : list (list string * Row) :=
  map (pair (columns gdf)) (rows gdf).

(** A row laid on [out_cols] carries a labelled row: same geometry, and
    every value of the labelled row under the same label. *)
Definition carries (labelled : list string * Row)
           (out_cols : list string) (r' : Row) : Prop :=
  geometry r' = geometry (snd labelled)
  /\ forall k v, field (fst labelled) (snd labelled) k = Some v ->
                 field out_cols r' k = Some v.

Definition list_string_eqb (a b : list string) : bool :=
  if list_eq_dec string_dec a b then true else false.

Definition same_columns (frames : list GeoDataFrame) : bool :=
  match frames with
  | [] => true
  | f :: rest =>
      forallb (fun g => list_string_eqb (columns g) (columns f)) rest
  end.

(** [pd.concat(frames, ignore_index=True)]: rows of all frames in order,
    over the union of the column labels (outer join, first appearance
    order).  Frames with a repeated label can only be stacked when all
    column lists agree; otherwise pandas cannot align them. *)
Definition pd_concat (frames : list GeoDataFrame) : Outcome GeoDataFrame :=
  match frames with
  | [] => Raises ValueError_no_objects
  | f :: _ =>
      if forallb (fun g => nodupb (columns g)) frames then
        let cols := union_labels [] (flat_map columns frames) in
        Returns {| columns := cols;
                   rows := flat_map (fun g =>
                                       map (reindex (columns g) cols)
                                           (rows g))
                                    frames;
                   crs := crs f |}
      else if same_columns frames then
        Returns {| columns := columns f;
                   rows := flat_map rows frames;
                   crs := crs f |}
      else Raises InvalidIndexError
  end.

(** [gpd.GeoDataFrame(pd.concat(all_layers.values(), ignore_index=True),
    crs=CRS_OUT)] *)
Definition combined (frames : list GeoDataFrame) : Outcome GeoDataFrame :=
  match pd_concat frames with
  | Returns df => Returns (set_crs CRS_OUT df)
  | Raises e => Raises e
  | OutOfFuel => OutOfFuel
  end.

(* ================================================================= *)
(** * LOAD *)

(** A Python [dict] with string keys, in insertion order. *)
Fixpoint dict_set (V : Type) (k : string) (v : V) (d : list (string * V))
  : list (string * V) :=
  match d with
  | [] => [(k, v)]
  | (k', v') :: d' =>
      if String.eqb k k' then (k, v) :: d' else (k', v') :: dict_set k v d'
  end.

Fixpoint dict_get (V : Type) (k : string) (d : list (string * V))
  : option V :=
  match d with
  | [] => None
  | (k', v) :: d' => if String.eqb k k' then Some v else dict_get k d'
  end.

Inductive FileContent : Type :=
| GeoJSONFile (gdf : GeoDataFrame)
| GPKGFile (layers : list (string * GeoDataFrame)).

Record FileSystem : Type := mkFS {
  is_dir : string -> bool;
  file_at : string -> option FileContent
}.

Definition write_file (path : string) (c : FileContent) (fs : FileSystem)
  : FileSystem :=
  {| is_dir := is_dir fs;
     file_at := fun q => if String.eqb q path then Some c
                         else file_at fs q |}.

(** [Path.mkdir(exist_ok=True)] *)
Definition mkdir_exist_ok (path : string) (fs : FileSystem)
  : Outcome FileSystem :=
  if is_dir fs path then Returns fs
  else match file_at fs path with
       | Some _ => Raises (FileExistsError path)
       | None =>
           Returns {| is_dir := fun q => if String.eqb q path then true
                                         else is_dir fs q;
                      file_at := file_at fs |}
       end.

(** [OUTPUT_DIR / name] *)
Definition path_join (dir name : string) : string :=
  dir ++ "/" ++ name.

Definition gpkg_path : string := path_join OUTPUT_DIR "education.gpkg".

Definition geojson_path (name : string) : string :=
  path_join OUTPUT_DIR (name ++ ".geojson").

(** [gdf.to_file(path, driver="GeoJSON")]: the file is written anew. *)
Definition to_file_geojson (path : string) (gdf : GeoDataFrame)
           (fs : FileSystem) : FileSystem :=
  write_file path (GeoJSONFile gdf) fs.

(** A layer written into a container replaces the layer of that name
    and leaves the others in place. *)
Definition set_layer (name : string) (gdf : GeoDataFrame)
           (layers : list (string * GeoDataFrame))
  : list (string * GeoDataFrame) :=
  filter (fun l => negb (String.eqb (fst l) name)) layers ++ [(name, gdf)].

(** [gdf.to_file(path, layer=name, driver="GPKG")]: an existing
    GeoPackage is opened and updated; anything else at [path] is
    replaced by a fresh container. *)
Definition to_file_gpkg (path name : string) (gdf : GeoDataFrame)
           (fs : FileSystem) : FileSystem :=
  match file_at fs path with
  | Some (GPKGFile layers) =>
      write_file path (GPKGFile (set_layer name gdf layers)) fs
  | _ => write_file path (GPKGFile [(name, gdf)]) fs
  end.

(** The layers held by the container at [gpkg_path]; none when no
    GeoPackage is there. *)
Definition container_layers (fs : FileSystem)
  : list (string * GeoDataFrame) :=
  match file_at fs gpkg_path with
  | Some (GPKGFile layers) => layers
  | _ => []
  end.

(** The layers of a container holding [layers] once every frame of
    [gdfs] has been written into it, in order. *)
Definition layers_after (gdfs layers : list (string * GeoDataFrame))
  : list (string * GeoDataFrame) :=
  fold_left (fun ls ng => set_layer (fst ng) (snd ng) ls) gdfs layers.

Fixpoint load_outputs (gdfs : list (string * GeoDataFrame))
         (fs : FileSystem) : FileSystem :=
  match gdfs with
  | [] => fs
  | (name, gdf) :: rest =>
      let fs := to_file_geojson (geojson_path name) gdf fs in
      let fs := to_file_gpkg gpkg_path name gdf fs in
      load_outputs rest fs
  end.

(** Line 31, run when the module is loaded:
    [OUTPUT_DIR.mkdir(exist_ok=True)]. *)
Definition module_init (fs : FileSystem) : Outcome FileSystem :=
  mkdir_exist_ok OUTPUT_DIR fs.

(* ================================================================= *)
(** * MAIN PIPELINE *)

Section Main.

Variable Service : Type.
Variable http_get :
  forall (layer_id offset count : nat), Service -> HttpResult * Service.

(** The [for name, layer_id in ...items()] loop of [main], filling
    [all_layers]. *)
Fixpoint extract_transform_all (fuel : nat) (layers : list (string * nat))
         (all_layers : list (string * GeoDataFrame)) (s : Service)
  : Outcome (list (string * GeoDataFrame)) * Service :=
  match layers with
  | [] => (Returns all_layers, s)
  | (name, layer_id) :: rest =>
      match extract_layer http_get fuel layer_id s with
      | (Returns gdf_raw, s1) =>
          let gdf_clean := transform gdf_raw name in
          extract_transform_all fuel rest
                                (dict_set name gdf_clean all_layers) s1
      | (Raises e, s1) => (Raises e, s1)
      | (OutOfFuel, s1) => (OutOfFuel, s1)
      end
  end.

(** [main], for a given layer table. *)
Definition main_on (layers : list (string * nat)) (fuel : nat)
           (s : Service) (fs : FileSystem)
  : Outcome unit * Service * FileSystem :=
  match extract_transform_all fuel layers [] s with
  | (Returns all_layers, s1) =>
      match combined (map snd all_layers) with
      | Returns c =>
          let all_layers := dict_set "education_all" c all_layers in
          (Returns tt, s1, load_outputs all_layers fs)
      | Raises e => (Raises e, s1, fs)
      | OutOfFuel => (OutOfFuel, s1, fs)
      end
  | (Raises e, s1) => (Raises e, s1, fs)
  | (OutOfFuel, s1) => (OutOfFuel, s1, fs)
  end.

Definition main (fuel : nat) (s : Service) (fs : FileSystem)
  : Outcome unit * Service * FileSystem :=
  main_on EDUCATION_LAYERS fuel s fs.

(** Running the script for a given layer table: module level first,
    then [main()]. *)
Definition run_on (layers : list (string * nat)) (fuel : nat)
           (s : Service) (fs : FileSystem)
  : Outcome unit * Service * FileSystem :=
  match module_init fs with
  | Returns fs1 => main_on layers fuel s fs1
  | Raises e => (Raises e, s, fs)
  | OutOfFuel => (OutOfFuel, s, fs)
  end.

Definition run (fuel : nat) (s : Service) (fs : FileSystem)
  : Outcome unit * Service * FileSystem :=
  run_on EDUCATION_LAYERS fuel s fs.

End Main.

End Transform.

(* =================================================================== *)
(** * A paged test service

    Each layer holds a fixed list of records; a request at [offset] for
    [count] records is answered with the records at positions
    [offset .. offset+count-1] (nothing once [offset] is past the end).
    The service state is the log of requests received. *)

Section PagedService.

Variable records : nat -> list Feature.
Variable service_crs : option CRS.

Definition Request : Type := nat * nat * nat.

Definition paged_get (layer_id offset count : nat) (log : list Request)
  : HttpResult * list Request :=
  (HttpOk {| d_features :=
               Some (firstn count (skipn offset (records layer_id)));
             d_crs := service_crs |},
   log ++ [(layer_id, offset, count)]).

(** The answer that ends the loop: an empty page. *)
Definition terminator : QueryData :=
  {| d_features := Some []; d_crs := service_crs |}.

(** The requests a full extraction sends: offsets 0, p, 2p, ... *)
Definition page_requests (layer_id page_size calls : nat) : list Request :=
  map (fun i => (layer_id, i * page_size, page_size)) (seq 0 calls).

End PagedService.

End Frames.

(** Number of pages needed for [n] records: the ceiling of n/p. *)
Definition pages (n p : nat) : nat := (n + p - 1) / p.

(* ===================================================================== *)
(** * Sample data

    Point geometries with integer coordinates and a stand-in projection
    that swaps the axes. *)

Definition Point : Type := (Z * Z)%type.

Definition swap_axes (src dst : CRS) (g : Point) : Point := (snd g, fst g).

Definition school_a : Feature Point :=
  {| f_geometry := Some (10, 20)%Z;
     f_properties := [("School Name", VStr "Adams");
                      ("Enrollment", VNum 410)] |}.

Definition school_b : Feature Point :=
  {| f_geometry := None;
     f_properties := [("School Name", VStr "Baker")] |}.

Definition school_c : Feature Point :=
  {| f_geometry := Some (30, 40)%Z;
     f_properties := [("School Name", VStr "Clark"); ("City", VStr "Ames")] |}.

Definition college_a : Feature Point :=
  {| f_geometry := Some (50, 60)%Z;
     f_properties := [("Name", VStr "State College")] |}.

(** Layer 76 holds three schools, layer 74 one college, every other layer
    nothing. *)
Definition sample_records (layer_id : nat) : list (Feature Point) :=
  if Nat.eqb layer_id 76 then [school_a; school_b; school_c]
  else if Nat.eqb layer_id 74 then [college_a]
  else [].

Definition no_records (layer_id : nat) : list (Feature Point) := [].

Definition schools_raw : GeoDataFrame Point :=
  from_features (sample_records 76) (Some (EPSG 3857)).

Definition colleges_raw : GeoDataFrame Point :=
  from_features (sample_records 74) None.

(** A feature whose two keys normalise to the same label. *)
Definition twin_keys : Feature Point :=
  {| f_geometry := Some (70, 80)%Z;
     f_properties := [("School Name", VStr "Doyle");
                      ("school-name", VStr "doyle-elementary")] |}.

Definition twin_raw : GeoDataFrame Point :=
  from_features [twin_keys] None.

Definition empty_fs : FileSystem Point :=
  {| is_dir := fun _ => false; file_at := fun _ => None |}.

Definition sample_outputs : list (string * GeoDataFrame Point) :=
  [ ("schools", transform swap_axes schools_raw "schools");
    ("colleges", transform swap_axes colleges_raw "colleges") ].

(** A file system left by an earlier run: the output directory, an old
    single-layer file and a container holding a layer named ["old"]. *)
Definition stale_fs : FileSystem Point :=
  {| is_dir := fun p => String.eqb p OUTPUT_DIR;
     file_at := fun p =>
       if String.eqb p gpkg_path
       then Some (GPKGFile [("old", colleges_raw); ("schools", colleges_raw)])
       else if String.eqb p (geojson_path "schools")
            then Some (GeoJSONFile colleges_raw)
            else None |}.


(* ===================================================================== *)
(** * A scripted test service

    The answer to a request is read off a table indexed by layer and
    offset, whatever was asked before; the service state is again the log
    of requests.  A table may hold an empty page in front of further
    records, a failure, or the same page at every offset. *)

Section ScriptedService.

Variable Geometry : Type.
Variable answer : nat -> nat -> HttpResult Geometry.

Definition scripted_get (layer_id offset count : nat) (log : list Request)
  : HttpResult Geometry * list Request :=
  (answer layer_id offset, log ++ [(layer_id, offset, count)]).

(** [data.get("features", [])] of an answer; a failed request has none. *)
Definition batch_of (response : HttpResult Geometry)
  : list (Feature Geometry) :=
  match response with
  | HttpOk data => match d_features data with
                   | Some batch => batch
                   | None => []
                   end
  | HttpFail _ _ => []
  end.

(** The request succeeds and brings at least one record. *)
Definition full_page (layer_id offset : nat) : Prop :=
  exists data, answer layer_id offset = HttpOk data
               /\ batch_of (HttpOk data) <> [].

(** The records of the first [k] pages of size [p], in order. *)
Definition first_pages (layer_id p k : nat) : list (Feature Geometry) :=
  flat_map (fun i => batch_of (answer layer_id (i * p))) (seq 0 k).

End ScriptedService.

(* ===================================================================== *)
(** * Predicates on labels and frames *)

Fixpoint str_forallb (f : ascii -> bool) (s : string) : bool :=
  match s with
  | EmptyString => true
  | String c s' => f c && str_forallb f s'
  end.

(** Neither a space, nor a hyphen, nor a letter A-Z. *)
Definition plain_char (c : ascii) : bool :=
  negb (is_upper c) && negb (Ascii.eqb c " ") && negb (Ascii.eqb c "-").

(** Neither a space nor a hyphen. *)
Definition no_separator (c : ascii) : bool :=
  negb (Ascii.eqb c " ") && negb (Ascii.eqb c "-").

(** Every byte is below 128: the label is made of ASCII characters. *)
Definition is_ascii (s : string) : bool :=
  str_forallb (fun c => nat_of_ascii c <? 128) s.

(** [.str.replace(" ", "_")] then [.str.replace("-", "_")] on one
    character. *)
Definition underscore_char (c : ascii) : ascii :=
  replace_char "-"%char "_"%char (replace_char " "%char "_"%char c).

(** ** The renaming for labels of any alphabet

    A label is held as the bytes of its UTF-8 form.  The space, the hyphen
    and the underscore are single bytes that occur in no multi-byte
    sequence, so replacing these bytes is replacing these characters.
    [Index.str.lower()] is Python's [str.lower], which lower-cases letters
    of every script and may change the length of a label: it is the
    parameter [lower].  [normalize_key] and [transform] above are the
    instance for [str_lower], which agrees with Python on ASCII labels. *)
Definition normalize_key_with (lower : string -> string) (s : string)
  : string :=
  str_replace "-"%char "_"%char (str_replace " "%char "_"%char (lower s)).

Section TransformWith.

Variable Geometry : Type.
Variable lower : string -> string.
Variable reproject : CRS -> CRS -> Geometry -> Geometry.

Definition transform_with (gdf : GeoDataFrame Geometry) (layer_name : string)
  : GeoDataFrame Geometry :=
  (* Ensure geometry exists *)
  let gdf := drop_null_geometry gdf in
  (* Normalize CRS *)
  let gdf := match crs gdf with
             | None => set_crs (EPSG 4326) gdf
             | Some src => to_crs reproject src CRS_OUT gdf
             end in
  (* Standardize column names *)
  let gdf := set_columns (map (normalize_key_with lower) (columns gdf)) gdf in
  (* Add metadata *)
  let gdf := setitem "facility_category" (VStr "education") gdf in
  let gdf := setitem "facility_type" (VStr layer_name) gdf in
  gdf.

End TransformWith.

(* ===================================================================== *)
(** * Writes that can fail

    [load_outputs] above is the run in which every [to_file] call
    succeeds.  Here each call may raise, as decided by [to_file_ok] from
    the path, the layer (none for a GeoJSON file), the frame and the file
    system at that moment; nothing catches the exception, so the loop
    stops at the first failing call and what was written before stays. *)

Inductive LoadEnd : Type :=
| Loaded
| ToFileFailed (path : string) (layer : option string).

(** How [main] ends: as before, or with the exception of a [to_file]. *)
Inductive RunEnd : Type :=
| Ran (o : Outcome unit)
| WriteFailed (path : string) (layer : option string).

Section FailingWrites.

Variable Geometry : Type.
Variable to_file_ok :
  string -> option string -> GeoDataFrame Geometry -> FileSystem Geometry
  -> bool.

Fixpoint load_outputs_io (gdfs : list (string * GeoDataFrame Geometry))
         (fs : FileSystem Geometry) : LoadEnd * FileSystem Geometry :=
  match gdfs with
  | [] => (Loaded, fs)
  | (name, gdf) :: rest =>
      if to_file_ok (geojson_path name) None gdf fs then
        let fs1 := to_file_geojson (geojson_path name) gdf fs in
        if to_file_ok gpkg_path (Some name) gdf fs1 then
          load_outputs_io rest (to_file_gpkg gpkg_path name gdf fs1)
        else (ToFileFailed gpkg_path (Some name), fs1)
      else (ToFileFailed (geojson_path name) None, fs)
  end.

Variable reproject : CRS -> CRS -> Geometry -> Geometry.
Variable Service : Type.
Variable http_get :
  forall (layer_id offset count : nat),
    Service -> HttpResult Geometry * Service.

Definition main_io (layers : list (string * nat)) (fuel : nat)
           (s : Service) (fs : FileSystem Geometry)
  : RunEnd * Service * FileSystem Geometry :=
  match extract_transform_all reproject http_get fuel layers [] s with
  | (Returns all_layers, s1) =>
      match combined (map snd all_layers) with
      | Returns c =>
          let all_layers := dict_set "education_all" c all_layers in
          match load_outputs_io all_layers fs with
          | (Loaded, fs') => (Ran (Returns tt), s1, fs')
          | (ToFileFailed path layer, fs') => (WriteFailed path layer, s1, fs')
          end
      | Raises e => (Ran (Raises e), s1, fs)
      | OutOfFuel => (Ran OutOfFuel, s1, fs)
      end
  | (Raises e, s1) => (Ran (Raises e), s1, fs)
  | (OutOfFuel, s1) => (Ran OutOfFuel, s1, fs)
  end.

End FailingWrites.

(** What every frame handed to the merge and to the writer satisfies. *)
Definition normalized (Geometry : Type) (gdf : GeoDataFrame Geometry) : Prop :=
  crs gdf = Some CRS_OUT
  /\ Forall (fun r => geometry r <> None) (rows gdf)
  /\ In "facility_category" (columns gdf)
  /\ In "facility_type" (columns gdf)
  /\ rectangular gdf.

(** The layers of a container whose names are not among those of [gdfs]. *)
Definition kept_layers (Geometry : Type)
           (gdfs layers : list (string * GeoDataFrame Geometry))
  : list (string * GeoDataFrame Geometry) :=
  filter (fun l => negb (existsb (String.eqb (fst l)) (map fst gdfs))) layers.

(** The frames [main] collects for the layers of a table, given the frame
    extracted for each layer id. *)
Definition collected (Geometry : Type)
           (reproject : CRS -> CRS -> Geometry -> Geometry)
           (raw : nat -> GeoDataFrame Geometry)
           (layers : list (string * nat))
           (all_layers : list (string * GeoDataFrame Geometry))
  : list (string * GeoDataFrame Geometry) :=
  fold_left (fun d nl => dict_set (fst nl)
                                  (transform reproject (raw (snd nl)) (fst nl))
                                  d)
            layers all_layers.

(* ===================================================================== *)
(** * The single-request script and its caller (school_building_module.py,
      etl_script.py) *)

Section EtlScript.

Variable Geometry : Type.
Variable Service : Type.

(** [requests.get(layer_url, params=params)] for a layer: one query with
    [where], [outFields] and [f] only, no offset and no record count. *)
Variable http_get_all : nat -> Service -> HttpResult Geometry * Service.

(** Files holding a dumped response body. *)
Definition JsonFiles : Type := string -> option (QueryData Geometry).

(** The module body of school_building_module.py: fetch layer 76 once and
    dump the body to ["schools.geojson"]. *)
Definition school_building_module (s : Service) (files : JsonFiles)
  : Outcome unit * Service * JsonFiles :=
  let (resp, s1) := http_get_all 76 s in
  match resp with
  | HttpFail _ status => (Raises (HTTPError status), s1, files)
  | HttpOk data =>
      (Returns tt, s1,
       fun p => if String.eqb p "schools.geojson" then Some data
                else files p)
  end.

(** How a script ends: by running to some outcome, by [exit(code)], or
    by looking up a name that a module does not define. *)
Inductive ScriptEnd : Type :=
| Ends (o : Outcome unit)
| SystemExit (code : nat)
| AttributeError (attribute : string).

(** [str()] of an environment value inside an f-string. *)
Definition fmt (v : option string) : string :=
  match v with Some s => s | None => "None" end.

(** [os.getenv(key, default)] *)
Definition getenv_default (env : string -> option string)
           (key default : string) : string :=
  match env key with Some s => s | None => default end.

Definition conn_string_neon (env : string -> option string) : string :=
  "postgresql+psycopg2://" ++ fmt (env "NEON_DB_USER") ++ ":"
    ++ fmt (env "NEON_DB_PASSWORD") ++ "@" ++ fmt (env "NEON_DB_HOST")
    ++ ":" ++ getenv_default env "NEON_DB_PORT" "5432" ++ "/"
    ++ fmt (env "NEON_DB_NAME").

(** Lines 33-38: the month after the current one. *)
Definition target_year_month (year month : Z) : Z * Z :=
  let target_year := year in
  let target_month := (month + 1)%Z in
  if (target_month >? 12)%Z then ((target_year + 1)%Z, 1%Z)
  else (target_year, target_month).

(** etl_script.py run as a script, on the environment [env] and the
    current year and month. *)
Definition etl_script (env : string -> option string) (year month : Z)
           (s : Service) (files : JsonFiles)
  : ScriptEnd * Service * JsonFiles :=
  (* import school_building_module *)
  match school_building_module s files with
  | (Returns _, s1, files1) =>
      match env "IBM_DOCKER_PSQL_BUILDING" with
      | None | Some EmptyString => (SystemExit 1, s1, files1)
      | Some _ =>
          let target := target_year_month year month in
          let neon := conn_string_neon env in
          (* line 55: school_building_module.monarch_etl_multi_day_scan(...);
             the module defines no such name, so the lookup raises before
             anything is called *)
          (AttributeError "monarch_etl_multi_day_scan", s1, files1)
      end
  | (Raises e, s1, files1) => (Ends (Raises e), s1, files1)
  | (OutOfFuel, s1, files1) => (Ends OutOfFuel, s1, files1)
  end.

End EtlScript.

(* ===================================================================== *)
(** * More sample data *)

(** Layer 76 as a service that sends an empty page at offset 2 although a
    third record sits at offset 4. *)
Definition flaky_answer (layer_id offset : nat) : HttpResult Point :=
  if Nat.eqb offset 0
  then HttpOk {| d_features := Some [school_a; school_c]; d_crs := None |}
  else if Nat.eqb offset 4
       then HttpOk {| d_features := Some [school_b]; d_crs := None |}
       else HttpOk {| d_features := Some [];
                      d_crs := Some (EPSG 3857) |}.

(** A service whose second page fails with status 503. *)
Definition failing_answer (layer_id offset : nat) : HttpResult Point :=
  if Nat.eqb offset 0
  then HttpOk {| d_features := Some [school_a; school_c]; d_crs := None |}
  else HttpFail Point 503.

(** A service that ignores the offset. *)
Definition stuck_answer (layer_id offset : nat) : HttpResult Point :=
  HttpOk {| d_features := Some [school_a]; d_crs := None |}.

Definition two_layers : list (string * nat) :=
  [("schools", 76); ("colleges", 74)].

Definition sample_raw (layer_id : nat) : GeoDataFrame Point :=
  from_features (sample_records layer_id) None.

Definition one_shot_ok (layer_id : nat) (calls : nat)
  : HttpResult Point * nat :=
  (HttpOk {| d_features := Some (sample_records layer_id); d_crs := None |},
   S calls).

Definition one_shot_down (layer_id : nat) (calls : nat)
  : HttpResult Point * nat :=
  (HttpFail Point 500, S calls).

(** Writes succeed except the one of layer ["colleges"] into the
    container. *)
Definition colleges_layer_rejected (path : string) (layer : option string)
           (gdf : GeoDataFrame Point) (fs : FileSystem Point) : bool :=
  match layer with
  | Some name => negb (String.eqb name "colleges")
  | None => true
  end.

Definition env_unset (key : string) : option string := None.

Definition env_ibm (key : string) : option string :=
  if String.eqb key "IBM_DOCKER_PSQL_BUILDING"
  then Some "postgresql://etl@db/buildings" else None.

Definition no_json_files : JsonFiles Point := fun _ => None.

Unset Implicit Arguments.

Lemma pages_zero (p : nat) : 0 < p -> pages 0 p = 0.
Proof.
  intros Hp. unfold pages. apply Nat.div_small. lia.
Qed.

Lemma pages_step (m p : nat) :
  0 < p -> 0 < m -> pages m p = S (pages (m - p) p).
Proof.
  intros Hp Hm. unfold pages.
  destruct (le_lt_dec p m) as [Hle | Hlt].
  - replace (m + p - 1) with ((m - p + p - 1) + 1 * p) by lia.
    rewrite Nat.div_add by lia. lia.
  - replace (m - p) with 0 by lia.
    replace (0 + p - 1) with (p - 1) by lia.
    rewrite (Nat.div_small (p - 1) p) by lia.
    replace (m + p - 1) with ((m - 1) + 1 * p) by lia.
    rewrite Nat.div_add by lia.
    rewrite Nat.div_small by lia. reflexivity.
Qed.

Lemma seq_requests (layer_id p offset n : nat) :
  (layer_id, offset, p)
    :: map (fun i => (layer_id, offset + p + i * p, p)) (seq 0 n)
  = map (fun i => (layer_id, offset + i * p, p)) (seq 0 (S n)).
Proof.
  cbn [seq map]. f_equal.
  - f_equal. f_equal. lia.
  - rewrite <- seq_shift, map_map. apply map_ext. intros i.
    f_equal. f_equal. cbn [Nat.mul]. lia.
Qed.

Section PagedExtraction.

Variable Geometry : Type.
Variable records : nat -> list (Feature Geometry).
Variable service_crs : option CRS.
Variable p : nat.
Variable layer_id : nat.
Hypothesis p_pos : 0 < p.

Let n := List.length (records layer_id).

Lemma paged_page_empty (offset : nat) :
  n <= offset -> firstn p (skipn offset (records layer_id)) = [].
Proof.
  intros H. rewrite skipn_all2 by exact H. apply firstn_nil.
Qed.

Lemma paged_page_nonempty (offset : nat) :
  offset < n -> firstn p (skipn offset (records layer_id)) <> [].
Proof.
  intros H E. apply (f_equal (@List.length _)) in E.
  rewrite length_firstn, length_skipn in E. cbn in E. fold n in E. lia.
Qed.

Lemma extract_loop_paged (fuel : nat) :
  forall offset acc log,
    pages (n - offset) p < fuel ->
    extract_loop (paged_get records service_crs) p fuel layer_id acc offset log
    = (Returns (acc ++ skipn offset (records layer_id), @terminator Geometry service_crs),
       log ++ map (fun i => (layer_id, offset + i * p, p))
                  (seq 0 (pages (n - offset) p + 1))).
Proof.
  induction fuel as [| fuel IH]; intros offset acc log Hfuel; [lia |].
  cbn [extract_loop paged_get d_features].
  destruct (le_lt_dec n offset) as [Hpast | Hin].
  - rewrite paged_page_empty by exact Hpast.
    rewrite skipn_all2 by exact Hpast. rewrite app_nil_r.
    replace (n - offset) with 0 by lia. rewrite pages_zero by exact p_pos.
    cbn. rewrite Nat.add_0_r. reflexivity.
  - pose proof (paged_page_nonempty _ Hin) as Hne.
    destruct (firstn p (skipn offset (records layer_id))) as [| f batch] eqn:E;
      [congruence |].
    rewrite (pages_step (n - offset) p) in Hfuel |- * by lia.
    rewrite IH by (replace (n - (offset + p)) with (n - offset - p) by lia; lia).
    replace (n - (offset + p)) with (n - offset - p) by lia.
    f_equal.
    + f_equal. f_equal. rewrite <- app_assoc. f_equal.
      rewrite <- E. rewrite Nat.add_comm, <- skipn_skipn.
      apply firstn_skipn.
    + rewrite <- app_assoc. f_equal. cbn [app].
      replace (S (pages (n - offset - p) p) + 1)
        with (S (pages (n - offset - p) p + 1)) by lia.
      apply seq_requests.
Qed.


Lemma from_features_rows (features : list (Feature Geometry))
      (c : option CRS) :
  List.length (rows (from_features features c)) = List.length features
  /\ map (@geometry _) (rows (from_features features c))
     = map (@f_geometry _) features.
Proof.
  unfold from_features; cbn [rows]. split.
  - apply length_map.
  - rewrite map_map. reflexivity.
Qed.

(** C1 (amended to layers holding at least one record): against the paged
    service with page size [p], extraction returns the frame built from
    all [n] records in service order, after exactly [pages n p + 1]
    requests at offsets 0, p, 2p, ...; every request but the last is
    answered with a non-empty page and the last with the empty page. *)
Theorem extract_layer_paged_service (fuel : nat) (log : list Request) :
  0 < n ->
  pages n p < fuel ->
  let gdf := from_features (records layer_id) service_crs in
  let calls := page_requests layer_id p (pages n p + 1) in
  extract_layer_paged (paged_get records service_crs) p fuel layer_id log
  = (Returns gdf, log ++ calls)
  /\ List.length (rows gdf) = n
  /\ map (@geometry _) (rows gdf) = map (@f_geometry _) (records layer_id)
  /\ List.length calls = pages n p + 1
  /\ (forall i, i < pages n p ->
                firstn p (skipn (i * p) (records layer_id)) <> [])
  /\ firstn p (skipn (pages n p * p) (records layer_id)) = [].
Proof.
  intros Hn Hfuel gdf calls.
  assert (Hbound : forall i, i < pages n p -> i * p < n).
  { intros i Hi. unfold pages in Hi.
    assert (i * p <= n + p - 1 - p); [| lia].
    assert (S i <= (n + p - 1) / p) as Hd by lia.
    apply (Nat.mul_le_mono_r _ _ p) in Hd.
    pose proof (Nat.Div0.mul_div_le (n + p - 1) p) as Hm.
    cbn [Nat.mul] in Hd. lia. }
  assert (Hcover : n <= pages n p * p).
  { unfold pages.
    pose proof (Nat.div_mod_eq (n + p - 1) p) as Hd.
    pose proof (Nat.mod_upper_bound (n + p - 1) p) as Hm. nia. }
  repeat split.
  - unfold extract_layer_paged.
    rewrite extract_loop_paged by (rewrite Nat.sub_0_r; exact Hfuel).
    rewrite Nat.sub_0_r. cbn [app skipn].
    fold n. unfold calls, page_requests.
    assert (Hne : records layer_id <> []).
    { intros E. unfold n in Hn. rewrite E in Hn. cbn in Hn. lia. }
    destruct (records layer_id) as [| f rest]; [congruence | reflexivity].
  - apply from_features_rows.
  - apply from_features_rows.
  - unfold calls, page_requests. rewrite length_map, length_seq. reflexivity.
  - intros i Hi. apply paged_page_nonempty. auto.
  - apply paged_page_empty. exact Hcover.
Qed.

End PagedExtraction.

(** Witness of [extract_layer_paged_service]: three records in pages of two. *)
Lemma extract_layer_paged_service_witness :
  extract_layer_paged (paged_get sample_records None) 2 5 76 []
  = (Returns (from_features (sample_records 76) None),
     [(76, 0, 2); (76, 2, 2); (76, 4, 2)]).
Proof.
  refine (proj1 (@extract_layer_paged_service Point sample_records None 2 76
                   _ 5 [] _ _)); cbn; lia.
Defined.

(** C1 fails as stated for a layer that holds no records: whatever the
    number of requests allowed, extraction never returns a collection (it
    raises after the first, empty, page). *)
Lemma extract_layer_no_records_never_returns :
  ~ (exists fuel gdf log,
        extract_layer (paged_get no_records None) fuel 76 []
        = (Returns gdf, log)
        /\ List.length (rows gdf) = List.length (no_records 76)).
Proof.
  intros (fuel & gdf & log & H & _).
  destruct fuel as [| fuel]; cbn in H; discriminate H.
Qed.

Lemma extract_layer_no_records_raises :
  extract_layer (paged_get no_records None) 1 76 []
  = (Raises (RuntimeError_no_data 76), [(76, 0, 2000)]).
Proof. reflexivity. Qed.

(* ===================================================================== *)
(** * Facts about strings and labels *)

Lemma crs_eqb_eq (a b : CRS) : crs_eqb a b = true <-> a = b.
Proof.
  destruct a as [m | s], b as [n | t]; cbn; split; intros H;
    try discriminate; try (inversion H; subst).
  - apply Nat.eqb_eq in H. congruence.
  - apply Nat.eqb_refl.
  - apply String.eqb_eq in H. congruence.
  - apply String.eqb_refl.
Qed.

Lemma normalize_key_chars (s : string) :
  normalize_key s = str_map normalize_char s.
Proof.
  unfold normalize_key, str_replace, str_lower.
  induction s as [| c s IH]; cbn; [reflexivity |].
  rewrite IH. reflexivity.
Qed.

Lemma normalize_char_spec (c : ascii) :
  normalize_char c
  = if (Ascii.eqb c " " || Ascii.eqb c "-")%bool then "_"%char
    else lower_char c.
Proof.
  destruct c as [[] [] [] [] [] [] [] []]; reflexivity.
Qed.

Lemma lower_char_spec (c : ascii) :
  lower_char c
  = if ((65 <=? nat_of_ascii c) && (nat_of_ascii c <=? 90))%bool
    then ascii_of_nat (nat_of_ascii c + 32) else c.
Proof. reflexivity. Qed.

Lemma normalize_char_idem (c : ascii) :
  normalize_char (normalize_char c) = normalize_char c.
Proof.
  destruct c as [[] [] [] [] [] [] [] []]; reflexivity.
Qed.

Lemma normalize_key_idem (s : string) :
  normalize_key (normalize_key s) = normalize_key s.
Proof.
  rewrite !normalize_key_chars.
  induction s as [| c s IH]; cbn; [reflexivity |].
  rewrite normalize_char_idem, IH. reflexivity.
Qed.

Lemma normalize_key_length (s : string) :
  String.length (normalize_key s) = String.length s.
Proof.
  rewrite normalize_key_chars.
  induction s as [| c s IH]; cbn; [reflexivity | now rewrite IH].
Qed.

Lemma normalize_key_geometry : normalize_key "geometry" = "geometry".
Proof. reflexivity. Qed.

Lemma existsb_eqb_In (k : string) (l : list string) :
  existsb (String.eqb k) l = true <-> In k l.
Proof.
  rewrite existsb_exists. split.
  - intros (x & Hx & E). apply String.eqb_eq in E. now subst.
  - intros H. exists k. split; [exact H | apply String.eqb_refl].
Qed.

Lemma setitem_columns_In (k : string) (cols : list string) :
  In k (setitem_columns k cols).
Proof.
  unfold setitem_columns.
  destruct (existsb (String.eqb k) cols) eqn:E.
  - now apply existsb_eqb_In.
  - apply in_or_app. right. now left.
Qed.

Lemma setitem_columns_incl (k k' : string) (cols : list string) :
  In k' cols -> In k' (setitem_columns k cols).
Proof.
  unfold setitem_columns. intros H.
  destruct (existsb (String.eqb k) cols); [exact H |].
  apply in_or_app. now left.
Qed.

Lemma setitem_columns_present (k : string) (cols : list string) :
  In k cols -> setitem_columns k cols = cols.
Proof.
  intros H. unfold setitem_columns.
  apply existsb_eqb_In in H. now rewrite H.
Qed.

Lemma setitem_columns_prefix (k : string) (cols : list string) :
  firstn (List.length cols) (setitem_columns k cols) = cols.
Proof.
  unfold setitem_columns. destruct (existsb (String.eqb k) cols).
  - apply firstn_all.
  - rewrite firstn_app, Nat.sub_diag, firstn_all. cbn. apply app_nil_r.
Qed.

Lemma firstn_length_app (A : Type) (l ext : list A) :
  firstn (List.length l) (l ++ ext) = l.
Proof.
  rewrite firstn_app, Nat.sub_diag, firstn_all. cbn. apply app_nil_r.
Qed.

Lemma setitem_columns_extends (k : string) (cols : list string) :
  exists ext, setitem_columns k cols = cols ++ ext.
Proof.
  unfold setitem_columns. destruct (existsb (String.eqb k) cols).
  - exists []. now rewrite app_nil_r.
  - now exists [k].
Qed.

Lemma setitem_columns_twice_prefix (k1 k2 : string) (cols : list string) :
  firstn (List.length cols) (setitem_columns k2 (setitem_columns k1 cols))
  = cols.
Proof.
  destruct (setitem_columns_extends k1 cols) as [e1 E1].
  destruct (setitem_columns_extends k2 (setitem_columns k1 cols)) as [e2 E2].
  rewrite E2, E1, <- app_assoc. apply firstn_length_app.
Qed.

Lemma setitem_columns_length (k : string) (cols : list string) :
  List.length cols <= List.length (setitem_columns k cols).
Proof.
  unfold setitem_columns. destruct (existsb (String.eqb k) cols);
    [| rewrite length_app]; lia.
Qed.

Lemma map_normalize_setitem_columns (k : string) (cols : list string) :
  normalize_key k = k ->
  map normalize_key cols = cols ->
  map normalize_key (setitem_columns k cols) = setitem_columns k cols.
Proof.
  intros Hk Hc. unfold setitem_columns.
  destruct (existsb (String.eqb k) cols); [exact Hc |].
  rewrite map_app, Hc. cbn. now rewrite Hk.
Qed.

(* ===================================================================== *)
(** * Facts about column assignment *)

Lemma assign_cells_length (k : string) (v : Value) (cols : list string) :
  forall cs, List.length (assign_cells k v cols cs) = List.length cs.
Proof.
  induction cols as [| c cols IH]; intros [| x cs]; cbn; auto.
Qed.

Lemma assign_cells_idem (k : string) (v : Value) (cols : list string) :
  forall cs,
    assign_cells k v cols (assign_cells k v cols cs) = assign_cells k v cols cs.
Proof.
  induction cols as [| c cols IH]; intros [| x cs]; cbn; auto.
  rewrite IH. destruct (String.eqb c k); reflexivity.
Qed.

Lemma assign_cells_absent (k : string) (v : Value) (cols : list string) :
  ~ In k cols -> forall cs, assign_cells k v cols cs = cs.
Proof.
  induction cols as [| c cols IH]; intros Hin [| x cs]; cbn; auto.
  destruct (String.eqb c k) eqn:E.
  - apply String.eqb_eq in E. subst. exfalso. apply Hin. now left.
  - rewrite IH; [reflexivity |]. intros H. apply Hin. now right.
Qed.

Lemma assign_cells_app (k : string) (v : Value) (cols cols2 : list string) :
  forall cs cs2,
    List.length cs = List.length cols ->
    assign_cells k v (cols ++ cols2) (cs ++ cs2)
    = assign_cells k v cols cs ++ assign_cells k v cols2 cs2.
Proof.
  induction cols as [| c cols IH]; intros [| x cs] cs2 Hlen;
    cbn in *; try discriminate.
  - destruct cols2; reflexivity.
  - rewrite IH by lia. reflexivity.
Qed.

(** Assigning under one label leaves the columns of another label as they
    are. *)
Lemma assign_cells_other (k k' : string) (v v' : Value) (cols : list string) :
  k <> k' ->
  forall cs,
    assign_cells k' v' cols cs = cs ->
    assign_cells k' v' cols (assign_cells k v cols cs) = assign_cells k v cols cs.
Proof.
  intros Hk. induction cols as [| c cols IH]; intros [| x cs] H; cbn in *; auto.
  injection H as Hx Hcs. rewrite (IH _ Hcs).
  destruct (String.eqb c k) eqn:E, (String.eqb c k') eqn:E'; try reflexivity.
  - apply String.eqb_eq in E, E'. congruence.
  - now rewrite Hx.
Qed.


Section RowFacts.

Variable Geometry : Type.
Implicit Types (r : Row Geometry).

Lemma setitem_row_length (k : string) (v : Value) (cols : list string) r :
  List.length (cells r) = List.length cols ->
  List.length (cells (setitem_row k v cols r))
  = List.length (setitem_columns k cols).
Proof.
  intros H. unfold setitem_row, setitem_columns. cbn [cells].
  destruct (existsb (String.eqb k) cols).
  - now rewrite assign_cells_length.
  - rewrite !length_app. cbn. lia.
Qed.

Lemma setitem_row_stable (k : string) (v : Value) (cols : list string) r :
  List.length (cells r) = List.length cols ->
  assign_cells k v (setitem_columns k cols) (cells (setitem_row k v cols r))
  = cells (setitem_row k v cols r).
Proof.
  intros H. unfold setitem_row, setitem_columns. cbn [cells].
  destruct (existsb (String.eqb k) cols) eqn:E.
  - apply assign_cells_idem.
  - rewrite assign_cells_app by exact H.
    rewrite assign_cells_absent.
    + cbn. now rewrite String.eqb_refl.
    + intros Hin. apply existsb_eqb_In in Hin. congruence.
Qed.

Lemma setitem_row_other (k k' : string) (v v' : Value)
      (cols : list string) r :
  k <> k' ->
  List.length (cells r) = List.length cols ->
  assign_cells k' v' cols (cells r) = cells r ->
  assign_cells k' v' (setitem_columns k cols) (cells (setitem_row k v cols r))
  = cells (setitem_row k v cols r).
Proof.
  intros Hk Hlen H. unfold setitem_row, setitem_columns. cbn [cells].
  destruct (existsb (String.eqb k) cols) eqn:E.
  - now apply assign_cells_other.
  - rewrite assign_cells_app by exact Hlen. rewrite H. cbn.
    apply String.eqb_neq in Hk. now rewrite Hk.
Qed.

Lemma setitem_row_present (k : string) (v : Value) (cols : list string) r :
  In k cols ->
  assign_cells k v cols (cells r) = cells r ->
  setitem_row k v cols r = r.
Proof.
  intros Hin H. unfold setitem_row.
  apply existsb_eqb_In in Hin. rewrite Hin, H. now destruct r.
Qed.


End RowFacts.

(* ===================================================================== *)
(** * Facts about [transform] *)

Section TransformFacts.

Variable Geometry : Type.
Variable reproject : CRS -> CRS -> Geometry -> Geometry.

Implicit Types (gdf : GeoDataFrame Geometry) (r : Row Geometry).

Lemma transform_columns gdf (layer_name : string) :
  columns (transform reproject gdf layer_name)
  = setitem_columns "facility_type"
      (setitem_columns "facility_category"
         (map normalize_key (columns gdf))).
Proof.
  unfold transform, drop_null_geometry. cbn [crs columns].
  destruct (crs gdf) as [src |]; [unfold to_crs |];
    try destruct (crs_eqb src CRS_OUT); reflexivity.
Qed.

Lemma transform_crs gdf (layer_name : string) :
  crs (transform reproject gdf layer_name) = Some CRS_OUT.
Proof.
  unfold transform, drop_null_geometry. cbn [crs columns].
  destruct (crs gdf) as [src |]; [unfold to_crs |]; [| reflexivity].
  destruct (crs_eqb src CRS_OUT) eqn:E; [| reflexivity].
  apply crs_eqb_eq in E. cbn. now subst.
Qed.

Lemma transform_rows gdf (layer_name : string) :
  rows (transform reproject gdf layer_name)
  = map (transform_row reproject (columns gdf) (crs gdf) layer_name)
        (filter (@notnull _) (rows gdf)).
Proof.
  unfold transform, transform_row, drop_null_geometry. cbn [crs columns].
  destruct (crs gdf) as [src |]; [unfold to_crs |].
  - destruct (crs_eqb src CRS_OUT); cbn; rewrite !map_map; reflexivity.
  - cbn. rewrite !map_map. reflexivity.
Qed.

Lemma transform_row_geometry (cols : list string) (c : option CRS)
      (layer_name : string) r :
  geometry (transform_row reproject cols c layer_name r)
  = match c with
    | None => geometry r
    | Some src => if crs_eqb src CRS_OUT then geometry r
                  else option_map (reproject src CRS_OUT) (geometry r)
    end.
Proof.
  unfold transform_row. destruct c as [src |]; [| reflexivity].
  destruct (crs_eqb src CRS_OUT); reflexivity.
Qed.

Lemma transform_row_notnull (cols : list string) (c : option CRS)
      (layer_name : string) r :
  notnull (transform_row reproject cols c layer_name r) = notnull r.
Proof.
  unfold notnull. rewrite transform_row_geometry.
  destruct c as [src |]; [| reflexivity].
  destruct (crs_eqb src CRS_OUT); [reflexivity |].
  destruct (geometry r); reflexivity.
Qed.

Lemma transform_all_notnull gdf (layer_name : string) :
  Forall (fun r => notnull r = true)
         (rows (transform reproject gdf layer_name)).
Proof.
  rewrite transform_rows. apply Forall_map, Forall_forall.
  intros r Hr. rewrite transform_row_notnull.
  now apply filter_In in Hr.
Qed.

(** C3: [transform] keeps exactly the rows whose geometry is not null, in
    their order, each in its normalised form; no row of the result has a
    null geometry. *)
Theorem transform_geometry_filter gdf (layer_name : string) :
  rows (transform reproject gdf layer_name)
  = map (transform_row reproject (columns gdf) (crs gdf) layer_name)
        (filter (@notnull _) (rows gdf))
  /\ Forall (fun r => geometry r <> None)
            (rows (transform reproject gdf layer_name))
  /\ List.length (rows (transform reproject gdf layer_name))
     = List.length (filter (@notnull _) (rows gdf))
  /\ (forall r, In r (rows gdf) ->
                (geometry r <> None <->
                 In (transform_row reproject (columns gdf) (crs gdf)
                                   layer_name r)
                    (rows (transform reproject gdf layer_name)))).
Proof.
  repeat split.
  - apply transform_rows.
  - eapply Forall_impl; [| apply transform_all_notnull].
    intros r H E. unfold notnull in H. now rewrite E in H.
  - rewrite transform_rows. apply length_map.
  - intros Hg. rewrite transform_rows. apply in_map, filter_In.
    split; [assumption |]. unfold notnull.
    destruct (geometry r); congruence.
  - intros Hin Hg.
    pose proof (transform_all_notnull gdf layer_name) as Hall.
    rewrite Forall_forall in Hall. specialize (Hall _ Hin).
    rewrite transform_row_notnull in Hall.
    unfold notnull in Hall. rewrite Hg in Hall. discriminate.
Qed.

(** C4: the result always declares EPSG:4326.  A frame without a declared
    reference keeps its coordinates; a frame declaring another reference
    has every geometry reprojected from it to EPSG:4326 (a frame already
    in EPSG:4326 is left as it is). *)
Theorem transform_reprojection gdf (layer_name : string) :
  crs (transform reproject gdf layer_name) = Some CRS_OUT
  /\ CRS_OUT = EPSG 4326
  /\ (crs gdf = None ->
      map (@geometry _) (rows (transform reproject gdf layer_name))
      = map (@geometry _) (filter (@notnull _) (rows gdf)))
  /\ (forall src, crs gdf = Some src -> src <> CRS_OUT ->
      map (@geometry _) (rows (transform reproject gdf layer_name))
      = map (fun r => option_map (reproject src CRS_OUT) (geometry r))
            (filter (@notnull _) (rows gdf)))
  /\ (crs gdf = Some CRS_OUT ->
      map (@geometry _) (rows (transform reproject gdf layer_name))
      = map (@geometry _) (filter (@notnull _) (rows gdf))).
Proof.
  split; [apply transform_crs |]. split; [reflexivity |].
  rewrite transform_rows, map_map. repeat split.
  - intros E. apply map_ext. intros r.
    rewrite transform_row_geometry, E. reflexivity.
  - intros src E Hne. apply map_ext. intros r.
    rewrite transform_row_geometry, E.
    destruct (crs_eqb src CRS_OUT) eqn:Eq; [| reflexivity].
    apply crs_eqb_eq in Eq. contradiction.
  - intros E. apply map_ext. intros r.
    rewrite transform_row_geometry, E. reflexivity.
Qed.

Lemma gdf_eq (a b : GeoDataFrame Geometry) :
  columns a = columns b -> rows a = rows b -> crs a = crs b -> a = b.
Proof. destruct a, b; cbn; intros; subst; reflexivity. Qed.

Lemma filter_all (A : Type) (f : A -> bool) (l : list A) :
  Forall (fun x => f x = true) l -> filter f l = l.
Proof.
  induction 1 as [| x l Hx _ IH]; cbn; [reflexivity |].
  now rewrite Hx, IH.
Qed.

(** The labels of a transformed frame are fixed by the renaming and
    already hold both metadata labels. *)
Lemma transform_columns_fixed gdf (layer_name : string) :
  let cols := columns (transform reproject gdf layer_name) in
  map normalize_key cols = cols
  /\ In "facility_category" cols /\ In "facility_type" cols.
Proof.
  cbn zeta. rewrite transform_columns. repeat split.
  - repeat apply map_normalize_setitem_columns; try reflexivity.
    rewrite map_map. apply map_ext, normalize_key_idem.
  - apply setitem_columns_incl, setitem_columns_In.
  - apply setitem_columns_In.
Qed.

Section OneRow.

Variables (cols : list string) (c : option CRS) (layer_name : string).
Variable r : Row Geometry.
Hypothesis r_rect : List.length (cells r) = List.length cols.

Let out_cols : list string :=
  setitem_columns "facility_type"
    (setitem_columns "facility_category" (map normalize_key cols)).

Let reprojected : Row Geometry :=
  match c with
  | None => r
  | Some src => if crs_eqb src CRS_OUT then r
                else reproject_row reproject src CRS_OUT r
  end.

Lemma reprojected_cells : cells reprojected = cells r.
Proof.
  unfold reprojected. destruct c as [src |]; [| reflexivity].
  destruct (crs_eqb src CRS_OUT); reflexivity.
Qed.

Lemma transform_row_length :
  List.length (cells (transform_row reproject cols c layer_name r))
  = List.length out_cols.
Proof.
  unfold transform_row. fold reprojected.
  apply setitem_row_length, setitem_row_length.
  now rewrite reprojected_cells, length_map.
Qed.

Lemma transform_row_tagged :
  let r' := transform_row reproject cols c layer_name r in
  assign_cells "facility_category" (VStr "education") out_cols (cells r')
  = cells r'
  /\ assign_cells "facility_type" (VStr layer_name) out_cols (cells r')
     = cells r'.
Proof.
  cbn zeta. unfold transform_row. fold reprojected.
  assert (Hlen : List.length (cells reprojected)
                 = List.length (map normalize_key cols))
    by now rewrite reprojected_cells, length_map.
  split.
  - apply setitem_row_other; [discriminate | |].
    + now apply setitem_row_length.
    + now apply setitem_row_stable.
  - apply setitem_row_stable. now apply setitem_row_length.
Qed.


End OneRow.

Lemma transform_rectangular gdf (layer_name : string) :
  rectangular gdf -> rectangular (transform reproject gdf layer_name).
Proof.
  unfold rectangular. intros H.
  rewrite transform_rows, transform_columns.
  apply Forall_map, Forall_forall. intros r Hr.
  apply filter_In in Hr as [Hr _].
  rewrite Forall_forall in H.
  apply transform_row_length. auto.
Qed.

(** C8: on a rectangular frame a second [transform] with the same layer
    name changes nothing. *)
Theorem transform_idempotent gdf (layer_name : string) :
  rectangular gdf ->
  transform reproject (transform reproject gdf layer_name) layer_name
  = transform reproject gdf layer_name.
Proof.
  intros Hrect.
  destruct (transform_columns_fixed gdf layer_name) as (Hnk & Hfc & Hft).
  cbn zeta in Hnk.
  set (t := transform reproject gdf layer_name) in *.
  apply gdf_eq.
  - rewrite transform_columns, Hnk.
    now rewrite !setitem_columns_present
      by (rewrite ?setitem_columns_present; assumption).
  - rewrite transform_rows.
    rewrite filter_all by apply transform_all_notnull.
    rewrite <- (map_id (rows t)) at 2. apply map_ext_in.
    intros r' Hr'. unfold t in Hr'. rewrite transform_rows in Hr'.
    apply in_map_iff in Hr' as (r & <- & Hr).
    apply filter_In in Hr as [Hr _].
    unfold rectangular in Hrect. rewrite Forall_forall in Hrect.
    specialize (Hrect _ Hr).
    destruct (transform_row_tagged (columns gdf) (crs gdf) layer_name r Hrect)
      as [Tfc Tft].
    cbn zeta in Tfc, Tft. fold t in Tfc, Tft.
    set (r' := transform_row reproject (columns gdf) (crs gdf) layer_name r)
      in *.
    rewrite <- transform_columns with (layer_name := layer_name) in Tfc, Tft.
    fold t in Tfc, Tft.
    assert (Hcrs : crs t = Some CRS_OUT) by apply transform_crs.
    unfold transform_row. rewrite Hcrs.
    cbn [crs_eqb CRS_OUT Nat.eqb]. rewrite Hnk.
    rewrite setitem_columns_present by exact Hfc.
    rewrite (@setitem_row_present _ "facility_category" _ _ r' Hfc Tfc).
    exact (@setitem_row_present _ "facility_type" _ _ r' Hft Tft).
  - unfold t. now rewrite !transform_crs.
Qed.


End TransformFacts.

(* ===================================================================== *)
(** * Facts about labels in first-appearance order *)

Lemma nodupb_NoDup (l : list string) : nodupb l = true <-> NoDup l.
Proof.
  induction l as [| x l IH]; cbn.
  - split; [constructor | reflexivity].
  - rewrite andb_true_iff, negb_true_iff, IH. split.
    + intros [Hx Hl]. constructor; [| assumption].
      intros Hin. apply existsb_eqb_In in Hin. congruence.
    + intros H. inversion H as [| ? ? Hx Hl]; subst. split; [| assumption].
      destruct (existsb (String.eqb x) l) eqn:E; [| reflexivity].
      apply existsb_eqb_In in E. contradiction.
Qed.

Lemma union_labels_In (ks : list string) :
  forall seen k, In k (union_labels seen ks) <-> In k seen \/ In k ks.
Proof.
  induction ks as [| x ks IH]; intros seen k; cbn.
  - tauto.
  - destruct (existsb (String.eqb x) seen) eqn:E; rewrite IH.
    + apply existsb_eqb_In in E. split; [tauto |].
      intros [H | [-> | H]]; tauto.
    + rewrite in_app_iff. cbn. tauto.
Qed.

Lemma union_labels_NoDup (ks : list string) :
  forall seen, NoDup seen -> NoDup (union_labels seen ks).
Proof.
  induction ks as [| x ks IH]; intros seen H; cbn; [assumption |].
  destruct (existsb (String.eqb x) seen) eqn:E; apply IH; [assumption |].
  apply NoDup_app; [assumption | repeat constructor; intros [] |].
  intros y Hy [<- | []]. apply existsb_eqb_In in Hy. congruence.
Qed.

Lemma union_labels_extends (ks : list string) :
  forall seen, exists ext, union_labels seen ks = seen ++ ext.
Proof.
  induction ks as [| x ks IH]; intros seen; cbn.
  - exists []. now rewrite app_nil_r.
  - destruct (existsb (String.eqb x) seen); [apply IH |].
    destruct (IH (seen ++ [x])) as [ext ->].
    exists (x :: ext). now rewrite <- app_assoc.
Qed.

Lemma lookup_combine_map (f : string -> Value) (k : string)
      (cols : list string) :
  In k cols -> lookup k (combine cols (map f cols)) = Some (f k).
Proof.
  induction cols as [| c cols IH]; cbn; [tauto |].
  intros H. destruct (String.eqb k c) eqn:E.
  - apply String.eqb_eq in E. now subst.
  - apply IH. destruct H as [-> | H]; [| assumption].
    rewrite String.eqb_refl in E. discriminate.
Qed.

Lemma lookup_Some_In (k : string) (v : Value) (kvs : list (string * Value)) :
  lookup k kvs = Some v -> In k (map fst kvs).
Proof.
  induction kvs as [| [k' v'] kvs IH]; cbn; [discriminate |].
  destruct (String.eqb k k') eqn:E.
  - apply String.eqb_eq in E. now left.
  - intros H. right. now apply IH.
Qed.

Lemma Forall2_flat_map (A B C : Type) (R : B -> C -> Prop)
      (F : A -> list B) (G : A -> list C) (l : list A) :
  (forall a, In a l -> Forall2 R (F a) (G a)) ->
  Forall2 R (flat_map F l) (flat_map G l).
Proof.
  induction l as [| a l IH]; intros H; cbn; [constructor |].
  apply Forall2_app; [apply H; now left |].
  apply IH. intros b Hb. apply H. now right.
Qed.

Lemma Forall2_map_both (A B C : Type) (R : B -> C -> Prop)
      (F : A -> B) (G : A -> C) (l : list A) :
  (forall a, In a l -> R (F a) (G a)) -> Forall2 R (map F l) (map G l).
Proof.
  induction l as [| a l IH]; intros H; cbn; constructor.
  - apply H. now left.
  - apply IH. intros b Hb. apply H. now right.
Qed.

Lemma map_of_flat_map (A B C : Type) (f : B -> C) (F : A -> list B)
      (l : list A) :
  map f (flat_map F l) = flat_map (fun a => map f (F a)) l.
Proof.
  induction l as [| a l IH]; cbn; [reflexivity |].
  now rewrite map_app, IH.
Qed.

Lemma length_flat_map_sum (A B : Type) (F : A -> list B) (l : list A) :
  List.length (flat_map F l)
  = list_sum (map (fun a => List.length (F a)) l).
Proof.
  induction l as [| a l IH]; cbn; [reflexivity |].
  now rewrite length_app, IH.
Qed.

(* ===================================================================== *)
(** * Facts about the combined dataset *)

Section CombinedFacts.

Variable Geometry : Type.

Implicit Types (gdf g c : GeoDataFrame Geometry) (r : Row Geometry).
Implicit Types (frames : list (GeoDataFrame Geometry)).

Lemma field_reindex (old_cols new_cols : list string) r (k : string) :
  In k new_cols ->
  field new_cols (reindex old_cols new_cols r) k
  = Some (match field old_cols r k with Some v => v | None => VNull end).
Proof.
  intros H. unfold field, reindex. cbn [cells].
  now rewrite lookup_combine_map.
Qed.

Lemma field_Some_In (cols : list string) r (k : string) (v : Value) :
  field cols r k = Some v -> In k cols.
Proof.
  unfold field. intros H. apply lookup_Some_In in H.
  revert H. generalize (cells r). induction cols as [| c cols IH];
    intros [| x cs]; cbn; try tauto.
  intros [-> | H]; [now left | right; eauto].
Qed.

Lemma same_columns_all g frames :
  same_columns (g :: frames) = true ->
  forall g', In g' (g :: frames) -> columns g' = columns g.
Proof.
  cbn. rewrite forallb_forall. intros H g' [<- | Hin]; [reflexivity |].
  specialize (H _ Hin). unfold list_string_eqb in H.
  now destruct (list_eq_dec string_dec (columns g') (columns g)).
Qed.

Lemma all_nodup_Forall frames :
  forallb (fun g => nodupb (columns g)) frames = true
  <-> Forall (fun g => NoDup (columns g)) frames.
Proof.
  rewrite forallb_forall, Forall_forall.
  split; intros H g Hg; apply nodupb_NoDup, H, Hg.
Qed.

Lemma reindexed_geometry (cols : list string) frames :
  map (@geometry _)
      (flat_map (fun g => map (reindex (columns g) cols) (rows g)) frames)
  = flat_map (fun g => map (@geometry _) (rows g)) frames.
Proof.
  rewrite map_of_flat_map. apply flat_map_ext. intros g.
  rewrite map_map. reflexivity.
Qed.

Lemma reindexed_carries (cols : list string) frames :
  (forall g k, In g frames -> In k (columns g) -> In k cols) ->
  Forall2 (fun lr r' => carries lr cols r')
          (flat_map (@labelled_rows _) frames)
          (flat_map (fun g => map (reindex (columns g) cols) (rows g))
                    frames).
Proof.
  intros Hcols. apply Forall2_flat_map. intros g Hg. unfold labelled_rows.
  apply Forall2_map_both. intros r _. split; [reflexivity |].
  cbn [fst snd]. intros k v Hkv.
  rewrite field_reindex.
  - now rewrite Hkv.
  - eapply Hcols; [eassumption |]. eapply field_Some_In; eauto.
Qed.

Lemma stacked_carries (cols : list string) frames :
  (forall g, In g frames -> columns g = cols) ->
  Forall2 (fun lr r' => carries lr cols r')
          (flat_map (@labelled_rows _) frames) (flat_map (@rows _) frames).
Proof.
  intros Hcols. apply Forall2_flat_map. intros g Hg. unfold labelled_rows.
  rewrite <- (map_id (rows g)) at 2.
  apply Forall2_map_both. intros r _. split; [reflexivity |].
  cbn [fst snd]. rewrite (Hcols g Hg). auto.
Qed.

Lemma pd_concat_rows frames c :
  pd_concat frames = Returns c ->
  map (@geometry _) (rows c)
  = flat_map (fun g => map (@geometry _) (rows g)) frames
  /\ Forall2 (fun lr r' => carries lr (columns c) r')
             (flat_map (@labelled_rows _) frames) (rows c).
Proof.
  unfold pd_concat. destruct frames as [| f rest]; [discriminate |].
  destruct (forallb _ (f :: rest)) eqn:Hnd.
  - intros [= <-]. split.
    + exact (reindexed_geometry _ (f :: rest)).
    + apply (reindexed_carries _ (f :: rest)). intros g k Hg Hk.
      apply union_labels_In. right.
      apply (in_flat_map (@columns _) (f :: rest)). eauto.
  - destruct (same_columns (f :: rest)) eqn:Hsame; [| discriminate].
    intros [= <-]. split.
    + exact (map_of_flat_map _ _ _ (@geometry _) (@rows _) (f :: rest)).
    + apply (stacked_carries (columns f) (f :: rest)).
      now apply same_columns_all.
Qed.

Lemma pd_concat_nodup frames :
  frames <> [] ->
  Forall (fun g => NoDup (columns g)) frames ->
  exists f rest,
    frames = f :: rest
    /\ pd_concat frames
       = Returns
           {| columns := union_labels [] (flat_map (@columns _) frames);
              rows := flat_map
                        (fun g =>
                           map (reindex (columns g)
                                  (union_labels []
                                     (flat_map (@columns _) frames)))
                               (rows g))
                        frames;
              crs := crs f |}.
Proof.
  intros Hne Hnd. destruct frames as [| f rest]; [congruence |].
  exists f, rest. split; [reflexivity |].
  unfold pd_concat. apply all_nodup_Forall in Hnd. now rewrite Hnd.
Qed.

(** C2: whenever the frames can be combined, the combined frame has as
    many rows as the inputs together, and its rows are the input rows in
    the order of the inputs and, within an input, in its row order: each
    carries the geometry and the labelled values of the input row at the
    same place.  Frames without repeated labels can always be combined. *)
Theorem combined_count_and_order frames :
  (forall c, combined frames = Returns c ->
     List.length (rows c)
     = list_sum (map (fun g => List.length (rows g)) frames)
     /\ map (@geometry _) (rows c)
        = flat_map (fun g => map (@geometry _) (rows g)) frames
     /\ Forall2 (fun lr r' => carries lr (columns c) r')
                (flat_map (@labelled_rows _) frames) (rows c))
  /\ (frames <> [] ->
      Forall (fun g => NoDup (columns g)) frames ->
      exists c, combined frames = Returns c).
Proof.
  split.
  - intros c H. unfold combined in H.
    destruct (pd_concat frames) as [df | e |] eqn:E; try discriminate.
    injection H as <-. cbn [set_crs rows columns].
    destruct (pd_concat_rows _ _ E) as [Hg Hc].
    repeat split; try assumption.
    rewrite <- (length_map (@geometry _)), Hg, length_flat_map_sum.
    f_equal. apply map_ext. intros g. apply length_map.
  - intros Hne Hnd.
    destruct (pd_concat_nodup _ Hne Hnd) as (f & rest & _ & E).
    unfold combined. rewrite E. eauto.
Qed.

(** C6: differing label sets are reconciled by the union of the columns
    with null fill.  On frames without repeated labels the merge never
    fails: its columns are the labels of all inputs in order of first
    appearance, each once, and every row is re-laid on them, holding its
    own value under a label it had and null under one it lacked.  The one
    failure on a non-empty input is [InvalidIndexError], raised exactly
    when some frame repeats a label and the column lists are not all the
    same. *)
Theorem combined_schema_policy frames :
  (frames <> [] ->
   Forall (fun g => NoDup (columns g)) frames ->
   exists c,
     combined frames = Returns c
     /\ columns c = union_labels [] (flat_map (@columns _) frames)
     /\ NoDup (columns c)
     /\ (forall k, In k (columns c)
                   <-> exists g, In g frames /\ In k (columns g))
     /\ rows c = flat_map (fun g => map (reindex (columns g) (columns c))
                                        (rows g)) frames
     /\ (forall g r k, In k (columns c) ->
           field (columns c) (reindex (columns g) (columns c) r) k
           = Some (match field (columns g) r k with
                   | Some v => v
                   | None => VNull
                   end)))
  /\ (forall e, combined frames = Raises e ->
        (frames = [] /\ e = ValueError_no_objects)
        \/ (frames <> [] /\ e = InvalidIndexError))
  /\ (frames <> [] ->
      (combined frames = Raises InvalidIndexError
       <-> (~ Forall (fun g => NoDup (columns g)) frames
            /\ same_columns frames = false))).
Proof.
  split; [| split].
  - intros Hne Hnd.
    destruct (pd_concat_nodup _ Hne Hnd) as (f & rest & _ & E).
    unfold combined. rewrite E. eexists. split; [reflexivity |].
    cbn [set_crs columns rows]. repeat split.
    + apply union_labels_NoDup. constructor.
    + intros H. apply union_labels_In in H as [[] | H].
      apply in_flat_map in H. exact H.
    + intros H. apply union_labels_In. right. now apply in_flat_map.
    + intros g r k Hk. now apply field_reindex.
  - intros e H. unfold combined, pd_concat in H.
    destruct frames as [| f rest].
    + left. split; [reflexivity | congruence].
    + right. split; [discriminate |].
      destruct (forallb _ (f :: rest)); [discriminate |].
      destruct (same_columns (f :: rest)); [discriminate | congruence].
  - intros Hne. unfold combined, pd_concat.
    destruct frames as [| f rest]; [congruence |].
    destruct (forallb _ (f :: rest)) eqn:Hnd.
    + split; [discriminate |]. intros [H _]. exfalso. apply H.
      now apply all_nodup_Forall.
    + assert (Hn : ~ Forall (fun g => NoDup (columns g)) (f :: rest)).
      { intros H. apply all_nodup_Forall in H. congruence. }
      destruct (same_columns (f :: rest)).
      * split; [discriminate | intros [_ H]; discriminate].
      * split; auto.
Qed.

End CombinedFacts.

(* ===================================================================== *)
(** * Facts about paths *)

Lemma list_ascii_of_string_app (a b : string) :
  list_ascii_of_string (a ++ b)
  = list_ascii_of_string a ++ list_ascii_of_string b.
Proof.
  induction a as [| c a IH]; cbn; [reflexivity | now rewrite IH].
Qed.

Lemma list_ascii_of_string_inj (a b : string) :
  list_ascii_of_string a = list_ascii_of_string b -> a = b.
Proof.
  intros H. rewrite <- (string_of_list_ascii_of_string a).
  rewrite <- (string_of_list_ascii_of_string b). now rewrite H.
Qed.

Lemma string_app_inv_head (s a b : string) : (s ++ a = s ++ b)%string -> a = b.
Proof.
  intros H. apply list_ascii_of_string_inj.
  apply (f_equal list_ascii_of_string) in H.
  rewrite !list_ascii_of_string_app in H. now apply app_inv_head in H.
Qed.

Lemma string_app_inv_tail (s a b : string) : (a ++ s = b ++ s)%string -> a = b.
Proof.
  intros H. apply list_ascii_of_string_inj.
  apply (f_equal list_ascii_of_string) in H.
  rewrite !list_ascii_of_string_app in H. now apply app_inv_tail in H.
Qed.

Lemma path_join_inj (dir a b : string) :
  path_join dir a = path_join dir b -> a = b.
Proof.
  unfold path_join. intros H.
  apply string_app_inv_head in H. now apply string_app_inv_head in H.
Qed.

Lemma geojson_path_inj (a b : string) :
  geojson_path a = geojson_path b -> a = b.
Proof.
  unfold geojson_path. intros H.
  apply path_join_inj in H. now apply string_app_inv_tail in H.
Qed.

Lemma geojson_path_not_gpkg (name : string) : geojson_path name <> gpkg_path.
Proof.
  unfold geojson_path, gpkg_path. intros H. apply path_join_inj in H.
  apply (f_equal list_ascii_of_string) in H.
  rewrite list_ascii_of_string_app in H.
  apply (f_equal (@rev ascii)) in H. rewrite rev_app_distr in H.
  cbn in H. discriminate H.
Qed.

(* ===================================================================== *)
(** * Facts about the written files *)

Section LoadFacts.

Variable Geometry : Type.

Implicit Types (fs : FileSystem Geometry) (gdf : GeoDataFrame Geometry).
Implicit Types (gdfs layers : list (string * GeoDataFrame Geometry)).

Lemma dict_get_set_layer_same (name : string) gdf layers :
  dict_get name (set_layer name gdf layers) = Some gdf.
Proof.
  unfold set_layer. induction layers as [| [n g] layers IH]; cbn.
  - now rewrite String.eqb_refl.
  - destruct (String.eqb n name) eqn:E; cbn; [exact IH |].
    rewrite String.eqb_sym, E. exact IH.
Qed.

Lemma dict_get_set_layer_other (name name' : string) gdf layers :
  name' <> name ->
  dict_get name' (set_layer name gdf layers) = dict_get name' layers.
Proof.
  intros Hne. unfold set_layer.
  induction layers as [| [n g] layers IH]; cbn.
  - apply String.eqb_neq in Hne. now rewrite Hne.
  - destruct (String.eqb n name) eqn:E; cbn.
    + apply String.eqb_eq in E. subst n.
      apply String.eqb_neq in Hne. now rewrite Hne.
    + now rewrite IH.
Qed.

Lemma to_file_gpkg_is_dir (path name p : string) gdf fs :
  is_dir (to_file_gpkg path name gdf fs) p = is_dir fs p.
Proof.
  unfold to_file_gpkg.
  destruct (file_at fs path) as [[g | ls] |]; reflexivity.
Qed.

Lemma load_outputs_is_dir gdfs :
  forall fs p, is_dir (load_outputs gdfs fs) p = is_dir fs p.
Proof.
  induction gdfs as [| [name gdf] gdfs IH]; intros fs p;
    cbn [load_outputs]; [reflexivity |].
  rewrite IH, to_file_gpkg_is_dir. reflexivity.
Qed.

Lemma to_file_gpkg_at (name : string) gdf fs :
  file_at (to_file_gpkg gpkg_path name gdf fs) gpkg_path
  = Some (GPKGFile (match file_at fs gpkg_path with
                    | Some (GPKGFile ls) => set_layer name gdf ls
                    | _ => [(name, gdf)]
                    end)).
Proof.
  unfold to_file_gpkg.
  destruct (file_at fs gpkg_path) as [[g | ls] |]; cbn [file_at write_file];
    now rewrite String.eqb_refl.
Qed.

Lemma to_file_gpkg_elsewhere (name p : string) gdf fs :
  p <> gpkg_path ->
  file_at (to_file_gpkg gpkg_path name gdf fs) p = file_at fs p.
Proof.
  intros Hp. apply String.eqb_neq in Hp. unfold to_file_gpkg.
  destruct (file_at fs gpkg_path) as [[g | ls] |]; cbn [file_at write_file];
    now rewrite Hp.
Qed.

Lemma load_outputs_elsewhere gdfs :
  forall fs p,
    p <> gpkg_path ->
    (forall name, In name (map fst gdfs) -> p <> geojson_path name) ->
    file_at (load_outputs gdfs fs) p = file_at fs p.
Proof.
  induction gdfs as [| [name gdf] gdfs IH]; intros fs p Hg Hn;
    cbn [load_outputs]; [reflexivity |].
  rewrite IH; [| assumption | intros n Hin; apply Hn; now right].
  rewrite to_file_gpkg_elsewhere by assumption.
  unfold to_file_geojson. cbn [file_at write_file].
  assert (E : String.eqb p (geojson_path name) = false)
    by (apply String.eqb_neq, Hn; now left).
  now rewrite E.
Qed.

Lemma load_outputs_geojson gdfs :
  forall fs name gdf,
    NoDup (map fst gdfs) ->
    In (name, gdf) gdfs ->
    file_at (load_outputs gdfs fs) (geojson_path name)
    = Some (GeoJSONFile gdf).
Proof.
  induction gdfs as [| [n g] gdfs IH]; intros fs name gdf Hnd Hin;
    [destruct Hin |].
  cbn in Hnd. inversion Hnd as [| ? ? Hn Hnd']; subst.
  destruct Hin as [[= -> ->] | Hin]; cbn [load_outputs].
  - rewrite load_outputs_elsewhere.
    + rewrite to_file_gpkg_elsewhere by apply geojson_path_not_gpkg.
      unfold to_file_geojson. cbn [file_at write_file].
      now rewrite String.eqb_refl.
    + apply geojson_path_not_gpkg.
    + intros n' Hn' E. apply geojson_path_inj in E. now subst.
  - now apply IH.
Qed.

Lemma load_outputs_gpkg gdfs :
  forall fs,
    gdfs <> [] ->
    file_at (load_outputs gdfs fs) gpkg_path
    = Some (GPKGFile (layers_after gdfs (container_layers fs))).
Proof.
  induction gdfs as [| [n g] gdfs IH]; intros fs Hne; [congruence |].
  cbn [load_outputs]. destruct gdfs as [| ng gdfs].
  - cbn [load_outputs]. rewrite to_file_gpkg_at.
    unfold to_file_geojson, container_layers, layers_after.
    cbn [file_at write_file fold_left fst snd].
    pose proof (geojson_path_not_gpkg n) as Hp.
    assert (E : String.eqb gpkg_path (geojson_path n) = false)
      by (apply String.eqb_neq; congruence).
    rewrite E.
    destruct (file_at fs gpkg_path) as [[g0 | ls] |]; try reflexivity.
    (* an existing file that is no GeoPackage is replaced *)
  - rewrite IH by discriminate. f_equal. f_equal.
    unfold layers_after at 2. cbn [fold_left fst snd].
    fold (layers_after (ng :: gdfs)). f_equal.
    unfold container_layers. rewrite to_file_gpkg_at.
    unfold to_file_geojson. cbn [file_at write_file].
    pose proof (geojson_path_not_gpkg n) as Hp.
    assert (E : String.eqb gpkg_path (geojson_path n) = false)
      by (apply String.eqb_neq; congruence).
    rewrite E.
    destruct (file_at fs gpkg_path) as [[g0 | ls] |]; reflexivity.
Qed.

Lemma layers_after_other gdfs :
  forall layers name,
    ~ In name (map fst gdfs) ->
    dict_get name (layers_after gdfs layers) = dict_get name layers.
Proof.
  induction gdfs as [| [n g] gdfs IH]; intros layers name Hn; cbn;
    [reflexivity |].
  unfold layers_after in *. cbn [fold_left fst snd].
  rewrite IH by (intros H; apply Hn; now right).
  apply dict_get_set_layer_other. intros ->. apply Hn. now left.
Qed.

Lemma layers_after_written gdfs :
  forall layers name gdf,
    NoDup (map fst gdfs) ->
    In (name, gdf) gdfs ->
    dict_get name (layers_after gdfs layers) = Some gdf.
Proof.
  induction gdfs as [| [n g] gdfs IH]; intros layers name gdf Hnd Hin;
    [destruct Hin |].
  cbn in Hnd. inversion Hnd as [| ? ? Hn Hnd']; subst.
  unfold layers_after in *. cbn [fold_left fst snd].
  destruct Hin as [[= -> ->] | Hin].
  - fold (layers_after gdfs (set_layer name gdf layers)).
    rewrite layers_after_other by assumption.
    apply dict_get_set_layer_same.
  - now apply IH.
Qed.

Lemma module_init_spec fs fs1 :
  module_init fs = Returns fs1 ->
  is_dir fs1 OUTPUT_DIR = true
  /\ (forall p, file_at fs1 p = file_at fs p)
  /\ (forall p, is_dir fs p = true -> is_dir fs1 p = true)
  /\ (is_dir fs OUTPUT_DIR = true -> fs1 = fs)
  /\ module_init fs1 = Returns fs1.
Proof.
  unfold module_init, mkdir_exist_ok.
  destruct (is_dir fs OUTPUT_DIR) eqn:Ed.
  - intros [= <-]. rewrite Ed. repeat split; auto.
  - destruct (file_at fs OUTPUT_DIR) eqn:Ef; [discriminate |].
    intros [= <-]. cbn. repeat split; auto.
    + intros p Hp. destruct (String.eqb p OUTPUT_DIR); auto.
    + discriminate.
Qed.

Lemma module_init_creates fs :
  is_dir fs OUTPUT_DIR = true \/ file_at fs OUTPUT_DIR = None ->
  exists fs1, module_init fs = Returns fs1.
Proof.
  unfold module_init, mkdir_exist_ok. intros [H | H].
  - rewrite H. eauto.
  - rewrite H. destruct (is_dir fs OUTPUT_DIR); eauto.
Qed.

(** C9 (amended for the container): after the module-level [mkdir] the
    output directory exists, no file has been touched, and a second
    [mkdir] changes nothing.  [load_outputs] then leaves, for every named
    frame, a GeoJSON file named after it that holds exactly that frame,
    whatever was there before, and one GeoPackage at [gpkg_path] in which
    every named frame is the layer of its name; layers of other names that
    the GeoPackage held before are kept, and no other file changes. *)
Theorem load_outputs_files gdfs fs fs1 :
  gdfs <> [] ->
  NoDup (map fst gdfs) ->
  module_init fs = Returns fs1 ->
  let out := load_outputs gdfs fs1 in
  is_dir fs1 OUTPUT_DIR = true
  /\ (forall p, file_at fs1 p = file_at fs p)
  /\ module_init fs1 = Returns fs1
  /\ (forall name gdf, In (name, gdf) gdfs ->
        file_at out (geojson_path name) = Some (GeoJSONFile gdf))
  /\ (exists layers,
        file_at out gpkg_path = Some (GPKGFile layers)
        /\ (forall name gdf, In (name, gdf) gdfs ->
              dict_get name layers = Some gdf)
        /\ (forall name, ~ In name (map fst gdfs) ->
              dict_get name layers = dict_get name (container_layers fs)))
  /\ (forall p, p <> gpkg_path ->
        (forall name, In name (map fst gdfs) -> p <> geojson_path name) ->
        file_at out p = file_at fs p)
  /\ is_dir out OUTPUT_DIR = true.
Proof.
  intros Hne Hnd Hinit out.
  destruct (module_init_spec _ _ Hinit) as (Hdir & Hfiles & _ & _ & Hidem).
  assert (Hlayers : container_layers fs1 = container_layers fs)
    by (unfold container_layers; now rewrite Hfiles).
  repeat split; try assumption.
  - intros name gdf Hin. unfold out. now apply load_outputs_geojson.
  - exists (layers_after gdfs (container_layers fs1)). repeat split.
    + unfold out. now apply load_outputs_gpkg.
    + intros name gdf Hin. now apply layers_after_written.
    + intros name Hn. rewrite <- Hlayers. now apply layers_after_other.
  - intros p Hp Hn. unfold out.
    rewrite load_outputs_elsewhere by assumption. apply Hfiles.
  - unfold out. now rewrite load_outputs_is_dir.
Qed.

End LoadFacts.

(* ===================================================================== *)
(** * Facts about the run *)

Section MainFacts.

Variable Geometry : Type.
Variable reproject : CRS -> CRS -> Geometry -> Geometry.
Variable Service : Type.
Variable http_get :
  forall (layer_id offset count : nat),
    Service -> HttpResult Geometry * Service.

Implicit Types (fs : FileSystem Geometry) (s : Service).
Implicit Types (layers pre post : list (string * nat)).

(** A first page without records ends the extraction with the
    no-data error after that one request. *)
Lemma extract_layer_first_page_empty (fuel layer_id : nat) s s1
      (data : QueryData Geometry) :
  http_get layer_id 0 PAGE_SIZE s = (HttpOk data, s1) ->
  d_features data = None \/ d_features data = Some [] ->
  extract_layer http_get (S fuel) layer_id s
  = (Raises (RuntimeError_no_data layer_id), s1).
Proof.
  intros Hget Hempty.
  unfold extract_layer, extract_layer_paged. cbn [extract_loop].
  rewrite Hget. destruct Hempty as [-> | ->]; reflexivity.
Qed.

Lemma extract_transform_all_app (fuel : nat) pre :
  forall post acc s,
    extract_transform_all reproject http_get fuel (pre ++ post) acc s
    = match extract_transform_all reproject http_get fuel pre acc s with
      | (Returns acc', s') =>
          extract_transform_all reproject http_get fuel post acc' s'
      | (Raises e, s') => (Raises e, s')
      | (OutOfFuel, s') => (OutOfFuel, s')
      end.
Proof.
  induction pre as [| [name layer_id] pre IH]; intros post acc s;
    cbn [app extract_transform_all]; [reflexivity |].
  destruct (extract_layer http_get fuel layer_id s) as [[gdf | e |] s1];
    [apply IH | reflexivity | reflexivity].
Qed.

(** C5: when the layers before it have been extracted and the first page
    of a configured layer holds no records, the extraction of that layer
    raises the no-data error, [main] ends with that error, and the file
    system is the one [main] started with; started from the module level
    the run has created the output directory at most, and no file. *)
Theorem empty_layer_aborts_run pre post (name : string)
        (layer_id fuel : nat) s s0 s1 fs
        (acc : list (string * GeoDataFrame Geometry))
        (data : QueryData Geometry) :
  extract_transform_all reproject http_get (S fuel) pre [] s
  = (Returns acc, s0) ->
  http_get layer_id 0 PAGE_SIZE s0 = (HttpOk data, s1) ->
  d_features data = None \/ d_features data = Some [] ->
  let layers := pre ++ (name, layer_id) :: post in
  extract_layer http_get (S fuel) layer_id s0
  = (Raises (RuntimeError_no_data layer_id), s1)
  /\ main_on reproject http_get layers (S fuel) s fs
     = (Raises (RuntimeError_no_data layer_id), s1, fs)
  /\ (forall fs1, module_init fs = Returns fs1 ->
        run_on reproject http_get layers (S fuel) s fs
        = (Raises (RuntimeError_no_data layer_id), s1, fs1)
        /\ forall p, file_at fs1 p = file_at fs p).
Proof.
  intros Hpre Hget Hempty layers.
  pose proof (extract_layer_first_page_empty fuel layer_id s0 s1 data
                Hget Hempty) as Hex.
  assert (Hmain : forall fs',
             main_on reproject http_get layers (S fuel) s fs'
             = (Raises (RuntimeError_no_data layer_id), s1, fs')).
  { intros fs'. unfold main_on, layers.
    rewrite extract_transform_all_app, Hpre.
    cbn [extract_transform_all]. rewrite Hex. reflexivity. }
  split; [exact Hex |]. split; [apply Hmain |].
  intros fs1 Hinit. split.
  - unfold run_on. rewrite Hinit. apply Hmain.
  - apply (module_init_spec _ fs fs1 Hinit).
Qed.

End MainFacts.

(* ===================================================================== *)
(** * The theorems on the sample data *)

Lemma schools_raw_rectangular : rectangular schools_raw.
Proof. repeat constructor. Qed.

Lemma sample_frames_nodup :
  Forall (fun g : GeoDataFrame Point => NoDup (columns g))
         (map snd sample_outputs).
Proof. apply (all_nodup_Forall Point). reflexivity. Qed.

(** Witness of [transform_geometry_filter]: the first school, which has a
    geometry, is kept. *)
Lemma transform_geometry_filter_witness :
  In (transform_row swap_axes (columns schools_raw) (crs schools_raw)
                    "schools"
                    (row_of_feature (columns schools_raw) school_a))
     (rows (transform swap_axes schools_raw "schools")).
Proof.
  apply (proj2 (proj2 (proj2
           (transform_geometry_filter _ swap_axes schools_raw "schools")))).
  - cbn. left. reflexivity.
  - cbn. discriminate.
Defined.

(** Witness of [transform_reprojection]: the schools come in EPSG:3857 and
    leave with swapped axes. *)
Lemma transform_reprojection_witness :
  map (@geometry _) (rows (transform swap_axes schools_raw "schools"))
  = [Some (20, 10)%Z; Some (40, 30)%Z].
Proof.
  rewrite (proj1 (proj2 (proj2 (proj2
             (transform_reprojection _ swap_axes schools_raw "schools"))))
             (EPSG 3857) eq_refl ltac:(discriminate)).
  reflexivity.
Defined.

(** Witness of [transform_idempotent]. *)
Lemma transform_idempotent_witness :
  transform swap_axes (transform swap_axes schools_raw "schools") "schools"
  = transform swap_axes schools_raw "schools".
Proof.
  apply (transform_idempotent _ swap_axes schools_raw "schools").
  repeat constructor.
Defined.


(** Witness of [combined_count_and_order]: two schools and one college. *)
Lemma combined_count_and_order_witness :
  exists c, combined (map snd sample_outputs) = Returns c
            /\ List.length (rows c) = 3.
Proof.
  destruct (combined_count_and_order _ (map snd sample_outputs))
    as [Hcount Htotal].
  destruct (Htotal ltac:(discriminate) sample_frames_nodup) as [c Hc].
  exists c. split; [exact Hc |].
  destruct (Hcount c Hc) as [Hlen _]. rewrite Hlen. reflexivity.
Defined.

(** Witness of [combined_schema_policy]: the union of the two label lists. *)
Lemma combined_schema_policy_witness :
  exists c, combined (map snd sample_outputs) = Returns c
            /\ columns c = ["school_name"; "enrollment"; "city";
                            "facility_category"; "facility_type"; "name"].
Proof.
  destruct (proj1 (combined_schema_policy _ (map snd sample_outputs))
              ltac:(discriminate) sample_frames_nodup)
    as (c & Hc & Hcols & _).
  exists c. split; [exact Hc |]. rewrite Hcols. reflexivity.
Defined.

(** Witness of [empty_layer_aborts_run]: layer 75 of the sample service is
    empty, so [main] stops there with the file system untouched. *)
Lemma empty_layer_aborts_run_witness :
  exists log,
    main swap_axes (paged_get sample_records None) 3 [] empty_fs
    = (Raises (RuntimeError_no_data 75), log, empty_fs).
Proof.
  eexists.
  refine (proj1 (proj2
            (empty_layer_aborts_run _ swap_axes _ (paged_get sample_records None)
               [("schools", 76); ("colleges_universities", 74)] []
               "technical_trade_schools" 75 2 [] _ _ empty_fs _ _ _ _ _))).
  - vm_compute. reflexivity.
  - vm_compute. reflexivity.
  - right. reflexivity.
Defined.

(** Witness of [load_outputs_files]: the stale single-layer file is
    replaced by the new frame. *)
Lemma load_outputs_files_witness :
  file_at (load_outputs sample_outputs stale_fs) (geojson_path "schools")
  = Some (GeoJSONFile (transform swap_axes schools_raw "schools")).
Proof.
  refine (proj1 (proj2 (proj2 (proj2
            (load_outputs_files _ sample_outputs stale_fs stale_fs _ _ _))))
            "schools" _ _).
  - discriminate.
  - apply nodupb_NoDup. reflexivity.
  - reflexivity.
  - left. reflexivity.
Defined.

(** C9 fails as stated for the container: a GeoPackage left by an earlier
    run is not overwritten, its layer ["old"] is still there afterwards, so
    the file differs from the one written into an empty directory. *)
Lemma stale_container_not_overwritten :
  ~ (file_at (load_outputs sample_outputs stale_fs) gpkg_path
     = file_at (load_outputs sample_outputs empty_fs) gpkg_path).
Proof.
  intros H. vm_compute in H. discriminate H.
Qed.

Lemma stale_container_keeps_old_layer :
  dict_get "old" (container_layers (load_outputs sample_outputs stale_fs))
  = Some colleges_raw
  /\ dict_get "schools"
              (container_layers (load_outputs sample_outputs stale_fs))
     = Some (transform swap_axes schools_raw "schools").
Proof. split; reflexivity. Qed.

(** With a key collision in one layer and different labels in another the
    frames cannot be stacked. *)
Lemma combined_twin_keys_fails :
  combined [transform swap_axes twin_raw "schools";
            transform swap_axes colleges_raw "colleges"]
  = Raises InvalidIndexError.
Proof. reflexivity. Qed.

(* ===================================================================== *)
(** * Further facts about extraction *)

Lemma flat_map_seq_S (A : Type) (f : nat -> list A) (k : nat) :
  flat_map f (seq 0 (S k)) = f 0 ++ flat_map (fun i => f (S i)) (seq 0 k).
Proof.
  cbn [seq flat_map]. f_equal. rewrite <- seq_shift.
  generalize (seq 0 k). intros l.
  induction l as [| x l IH]; cbn; [reflexivity | now rewrite IH].
Qed.

Lemma map_seq_S (A : Type) (f : nat -> A) (k : nat) :
  map f (seq 0 (S k)) = f 0 :: map (fun i => f (S i)) (seq 0 k).
Proof.
  cbn [seq map]. f_equal. rewrite <- seq_shift. apply map_map.
Qed.

Section FromFeaturesFacts.

Variable Geometry : Type.

Lemma from_features_rectangular (features : list (Feature Geometry))
      (c : option CRS) :
  rectangular (from_features features c).
Proof.
  unfold rectangular, from_features. cbn [rows columns].
  apply Forall_map, Forall_forall. intros f _.
  unfold row_of_feature. cbn [cells]. apply length_map.
Qed.

Lemma from_features_nodup (features : list (Feature Geometry))
      (c : option CRS) :
  NoDup (columns (from_features features c)).
Proof.
  unfold from_features, feature_labels. cbn [columns].
  apply union_labels_NoDup. constructor.
Qed.

End FromFeaturesFacts.

Section ExtractFacts.

Variable Geometry : Type.
Variable Service : Type.
Variable http_get :
  forall (layer_id offset count : nat),
    Service -> HttpResult Geometry * Service.

(** X1: whatever the service does, a frame that extraction returns has at
    least one row, one cell per column in every row, and no label twice. *)
Theorem extract_layer_returns_sound (p fuel layer_id : nat)
        (s s' : Service) (gdf : GeoDataFrame Geometry) :
  extract_layer_paged http_get p fuel layer_id s = (Returns gdf, s') ->
  rows gdf <> [] /\ rectangular gdf /\ NoDup (columns gdf).
Proof.
  unfold extract_layer_paged.
  destruct (extract_loop http_get p fuel layer_id [] 0 s)
    as [[[features data] | e |] s1]; try discriminate.
  destruct features as [| f rest]; [discriminate |].
  intros [= <- _]. repeat split.
  - unfold from_features. cbn [rows map]. discriminate.
  - apply from_features_rectangular.
  - apply from_features_nodup.
Qed.

End ExtractFacts.

Section ScriptedFacts.

Variable Geometry : Type.
Variable answer : nat -> nat -> HttpResult Geometry.
Variables (p layer_id : nat).

Lemma scripted_loop_skip (k : nat) :
  forall fuel offset acc log,
    (forall i, i < k -> full_page answer layer_id (offset + i * p)) ->
    extract_loop (scripted_get answer) p (k + fuel) layer_id acc offset log
    = extract_loop (scripted_get answer) p fuel layer_id
        (acc ++ flat_map (fun i => batch_of (answer layer_id (offset + i * p)))
                         (seq 0 k))
        (offset + k * p)
        (log ++ map (fun i => (layer_id, offset + i * p, p)) (seq 0 k)).
Proof.
  induction k as [| k IH]; intros fuel offset acc log Hfull.
  - cbn. now rewrite !app_nil_r, Nat.add_0_r.
  - rewrite flat_map_seq_S, map_seq_S.
    destruct (Hfull 0 ltac:(lia)) as (data & Hans & Hne).
    cbn [Nat.mul] in Hans. rewrite Nat.add_0_r in Hans.
    cbn [Nat.add extract_loop scripted_get].
    cbn [Nat.mul]. rewrite !Nat.add_0_r. rewrite Hans.
    cbn [batch_of] in Hne |- *.
    destruct (d_features data) as [[| f batch] |]; try congruence.
    rewrite IH.
    + assert (E1 : flat_map (fun i => batch_of
                                        (answer layer_id (offset + p + i * p)))
                            (seq 0 k)
                   = flat_map (fun i => batch_of
                                          (answer layer_id (offset + S i * p)))
                              (seq 0 k)).
      { apply flat_map_ext. intros i. do 2 f_equal. cbn [Nat.mul]. lia. }
      assert (E2 : map (fun i => (layer_id, offset + p + i * p, p)) (seq 0 k)
                   = map (fun i => (layer_id, offset + S i * p, p)) (seq 0 k)).
      { apply map_ext. intros i. do 2 f_equal. cbn [Nat.mul]. lia. }
      rewrite E1, E2.
      replace (offset + p + k * p) with (offset + S k * p)
        by (cbn [Nat.mul]; lia).
      rewrite <- !app_assoc. reflexivity.
    + intros i Hi. specialize (Hfull (S i) ltac:(lia)).
      cbn [Nat.mul] in Hfull.
      now replace (offset + p + i * p) with (offset + (p + i * p)) by lia.
Qed.

Lemma scripted_loop_prefix (k fuel : nat) (log : list Request) :
  (forall i, i < k -> full_page answer layer_id (i * p)) ->
  extract_loop (scripted_get answer) p (k + fuel) layer_id [] 0 log
  = extract_loop (scripted_get answer) p fuel layer_id
      (first_pages answer layer_id p k) (k * p)
      (log ++ page_requests layer_id p k).
Proof.
  intros Hfull. rewrite scripted_loop_skip by exact Hfull. reflexivity.
Qed.

Lemma page_requests_S (k : nat) :
  page_requests layer_id p (k + 1)
  = page_requests layer_id p k ++ [(layer_id, k * p, p)].
Proof.
  unfold page_requests. rewrite seq_app, map_app. reflexivity.
Qed.

Lemma first_pages_nonempty (k : nat) :
  0 < k ->
  (forall i, i < k -> full_page answer layer_id (i * p)) ->
  first_pages answer layer_id p k <> [].
Proof.
  intros Hk Hfull. destruct k as [| k]; [lia |].
  unfold first_pages. rewrite flat_map_seq_S.
  destruct (Hfull 0 ltac:(lia)) as (data & Hans & Hne).
  rewrite Hans. intros E. apply app_eq_nil in E as [E _]. contradiction.
Qed.

(** X2: extraction ends at the first page without records.  When the
    first [k >= 1] pages bring records and the next answer brings none, the
    result holds exactly the records of those [k] pages, in order, with the
    CRS of that last answer, after [k + 1] requests; whatever the service
    holds at later offsets is never asked for. *)
Theorem scripted_stops_at_first_empty (k fuel : nat) (log : list Request)
        (last : QueryData Geometry) :
  0 < k ->
  (forall i, i < k -> full_page answer layer_id (i * p)) ->
  answer layer_id (k * p) = HttpOk last ->
  batch_of (HttpOk last) = [] ->
  k < fuel ->
  extract_layer_paged (scripted_get answer) p fuel layer_id log
  = (Returns (from_features (first_pages answer layer_id p k) (d_crs last)),
     log ++ page_requests layer_id p (k + 1)).
Proof.
  intros Hk Hfull Hlast Hempty Hfuel.
  replace fuel with (k + S (fuel - k - 1)) by lia.
  unfold extract_layer_paged. rewrite scripted_loop_prefix by exact Hfull.
  cbn [extract_loop scripted_get]. rewrite Hlast.
  rewrite page_requests_S, app_assoc.
  pose proof (first_pages_nonempty k Hk Hfull) as Hne.
  cbn [batch_of] in Hempty.
  destruct (d_features last) as [[| f b] |]; try discriminate;
    destruct (first_pages answer layer_id p k); congruence.
Qed.

(** X3: a failed request ends extraction with the HTTP error of that
    request, whatever was fetched before: after [k] pages with records and
    a failure on the next request the outcome is that error, after
    [k + 1] requests. *)
Theorem scripted_fails_at_first_error (k fuel status : nat)
        (log : list Request) :
  (forall i, i < k -> full_page answer layer_id (i * p)) ->
  answer layer_id (k * p) = HttpFail Geometry status ->
  k < fuel ->
  extract_layer_paged (scripted_get answer) p fuel layer_id log
  = (Raises (HTTPError status), log ++ page_requests layer_id p (k + 1)).
Proof.
  intros Hfull Hfail Hfuel.
  replace fuel with (k + S (fuel - k - 1)) by lia.
  unfold extract_layer_paged. rewrite scripted_loop_prefix by exact Hfull.
  cbn [extract_loop scripted_get]. rewrite Hfail.
  now rewrite page_requests_S, app_assoc.
Qed.

(** X4: against a service whose every page brings records (one that
    ignores the offset, for instance) the loop has no exit: for every
    number of requests allowed, all of them are spent and nothing is
    returned. *)
Theorem scripted_never_ends (fuel : nat) (log : list Request) :
  (forall i, full_page answer layer_id (i * p)) ->
  extract_layer_paged (scripted_get answer) p fuel layer_id log
  = (OutOfFuel, log ++ page_requests layer_id p fuel).
Proof.
  intros Hfull. unfold extract_layer_paged.
  replace fuel with (fuel + 0) at 1 by lia.
  rewrite scripted_loop_prefix by (intros; apply Hfull).
  reflexivity.
Qed.

End ScriptedFacts.

(* ===================================================================== *)
(** * Further facts about labels, rows and [transform] *)

Lemma plain_normalize_char (c : ascii) : plain_char (normalize_char c) = true.
Proof. destruct c as [[] [] [] [] [] [] [] []]; reflexivity. Qed.

Lemma plain_char_fixed (c : ascii) :
  plain_char c = true <-> normalize_char c = c.
Proof.
  destruct c as [[] [] [] [] [] [] [] []]; cbv; split; intros H;
    solve [reflexivity | discriminate H].
Qed.

Lemma normalize_key_ascii_plain (s : string) :
  str_forallb plain_char (normalize_key s) = true
  /\ String.length (normalize_key s) = String.length s
  /\ (normalize_key s = s <-> str_forallb plain_char s = true)
  /\ normalize_key (normalize_key s) = normalize_key s.
Proof.
  split; [| split; [apply normalize_key_length | split]].
  - rewrite normalize_key_chars.
    induction s as [| c s IH]; cbn; [reflexivity |].
    now rewrite plain_normalize_char, IH.
  - rewrite normalize_key_chars.
    induction s as [| c s IH]; cbn; [tauto |].
    rewrite andb_true_iff, <- IH, plain_char_fixed. split.
    + intros [= Hc Hs]. now split.
    + intros [Hc Hs]. now rewrite Hc, Hs.
  - apply normalize_key_idem.
Qed.

Lemma assign_cells_overwrite (k : string) (v v' : Value)
      (cols : list string) :
  forall cs,
    assign_cells k v' cols (assign_cells k v cols cs)
    = assign_cells k v' cols cs.
Proof.
  induction cols as [| c cols IH]; intros [| x cs]; cbn; auto.
  rewrite IH. destruct (String.eqb c k); reflexivity.
Qed.

Lemma assign_cells_lookup (k : string) (v : Value) (cols : list string) :
  forall cs,
    List.length cs = List.length cols ->
    In k cols ->
    assign_cells k v cols cs = cs ->
    lookup k (combine cols cs) = Some v.
Proof.
  induction cols as [| c cols IH]; intros [| x cs] Hlen Hin H;
    cbn in *; try discriminate; try tauto.
  injection H as Hx Hcs.
  destruct (String.eqb k c) eqn:E.
  - rewrite String.eqb_sym, E in Hx. now subst.
  - apply IH; [lia | | assumption].
    destruct Hin as [-> | Hin]; [| assumption].
    rewrite String.eqb_refl in E. discriminate.
Qed.

Section RowRoundTrip.

Variable Geometry : Type.

Implicit Types (f : Feature Geometry) (features : list (Feature Geometry)).

Lemma feature_labels_In features (k : string) :
  In k (feature_labels features)
  <-> exists f, In f features /\ In k (map fst (f_properties f)).
Proof.
  unfold feature_labels. rewrite union_labels_In, in_flat_map.
  cbn [In]. tauto.
Qed.

(** X6: in the frame built from a list of features, the row of a feature
    gives back each of the feature's properties under its key, reads as
    null under a key that only other features have, and has nothing under
    a key that no feature has. *)
Theorem from_features_round_trip features (c : option CRS) f (k : string) :
  In f features ->
  let gdf := from_features features c in
  let r := row_of_feature (columns gdf) f in
  (forall v, lookup k (f_properties f) = Some v ->
             field (columns gdf) r k = Some v)
  /\ (In k (columns gdf) -> lookup k (f_properties f) = None ->
      field (columns gdf) r k = Some VNull)
  /\ (~ In k (columns gdf) -> field (columns gdf) r k = None)
  /\ In r (rows gdf).
Proof.
  intros Hf gdf r. repeat split.
  - intros v Hv. unfold field, r, row_of_feature. cbn [cells].
    rewrite lookup_combine_map.
    + unfold lookup_or_null. now rewrite Hv.
    + unfold gdf, from_features. cbn [columns].
      apply feature_labels_In. exists f. split; [assumption |].
      eapply lookup_Some_In; eauto.
  - intros Hk Hnone. unfold field, r, row_of_feature. cbn [cells].
    rewrite lookup_combine_map by assumption.
    unfold lookup_or_null. now rewrite Hnone.
  - intros Hk.
    destruct (field (columns gdf) r k) as [v |] eqn:E; [| reflexivity].
    exfalso. apply Hk. eapply field_Some_In; eauto.
  - unfold gdf, from_features. cbn [rows columns]. now apply in_map.
Qed.

End RowRoundTrip.

Section TransformMore.

Variable Geometry : Type.
Variable reproject : CRS -> CRS -> Geometry -> Geometry.

Implicit Types (gdf : GeoDataFrame Geometry) (r : Row Geometry).

Lemma setitem_row_overwrite (k : string) (v v' : Value)
      (cols : list string) r :
  List.length (cells r) = List.length cols ->
  assign_cells k v' (setitem_columns k cols) (cells (setitem_row k v cols r))
  = cells (setitem_row k v' cols r).
Proof.
  intros Hlen. unfold setitem_row, setitem_columns. cbn [cells].
  destruct (existsb (String.eqb k) cols) eqn:E.
  - apply assign_cells_overwrite.
  - rewrite assign_cells_app by exact Hlen.
    rewrite assign_cells_absent.
    + cbn. now rewrite String.eqb_refl.
    + intros Hin. apply existsb_eqb_In in Hin. congruence.
Qed.

(** X7: in the result of [transform] on a rectangular frame every row
    reads ["education"] under [facility_category] and the layer name under
    [facility_type], whatever the input held under these labels. *)
Theorem transform_tags_rows gdf (layer_name : string) :
  rectangular gdf ->
  let out := transform reproject gdf layer_name in
  Forall (fun r' =>
            field (columns out) r' "facility_category"
            = Some (VStr "education")
            /\ field (columns out) r' "facility_type"
               = Some (VStr layer_name))
         (rows out).
Proof.
  intros Hrect out.
  destruct (transform_columns_fixed _ reproject gdf layer_name)
    as (_ & Hfc & Hft).
  cbn zeta in Hfc, Hft. fold out in Hfc, Hft.
  unfold out at 3. rewrite transform_rows.
  apply Forall_map, Forall_forall. intros r Hr.
  apply filter_In in Hr as [Hr _].
  unfold rectangular in Hrect. rewrite Forall_forall in Hrect.
  specialize (Hrect _ Hr).
  pose proof (transform_row_length _ reproject (columns gdf) (crs gdf)
                layer_name r Hrect) as Hlen.
  destruct (transform_row_tagged _ reproject (columns gdf) (crs gdf)
              layer_name r Hrect) as [Tfc Tft].
  cbn zeta in Tfc, Tft.
  rewrite <- (transform_columns _ reproject gdf layer_name) in Hlen, Tfc, Tft.
  fold out in Hlen, Tfc, Tft.
  unfold field. split; now apply assign_cells_lookup.
Qed.

(** X8: on a rectangular frame a second [transform] under another layer
    name gives what a single [transform] under that name gives: only the
    [facility_type] tag depends on the name, and the last name wins. *)
Theorem transform_retag gdf (first_name second_name : string) :
  rectangular gdf ->
  transform reproject (transform reproject gdf first_name) second_name
  = transform reproject gdf second_name.
Proof.
  intros Hrect.
  destruct (transform_columns_fixed _ reproject gdf first_name)
    as (Hnk & Hfc & Hft).
  cbn zeta in Hnk, Hfc, Hft.
  set (t := transform reproject gdf first_name) in *.
  assert (Hcols : columns t = columns (transform reproject gdf second_name))
    by (unfold t; now rewrite !transform_columns).
  apply gdf_eq.
  - rewrite transform_columns, Hnk.
    rewrite (setitem_columns_present _ _ Hfc).
    rewrite (setitem_columns_present _ _ Hft). exact Hcols.
  - rewrite transform_rows.
    rewrite filter_all by apply transform_all_notnull.
    unfold t at 3. rewrite !transform_rows, map_map.
    apply map_ext_in. intros r Hr.
    apply filter_In in Hr as [Hr _].
    unfold rectangular in Hrect. rewrite Forall_forall in Hrect.
    specialize (Hrect _ Hr).
    destruct (transform_row_tagged _ reproject (columns gdf) (crs gdf)
                first_name r Hrect) as [Tfc _].
    cbn zeta in Tfc.
    rewrite <- (transform_columns _ reproject gdf first_name) in Tfc.
    fold t in Tfc.
    set (r1 := transform_row reproject (columns gdf) (crs gdf) first_name r)
      in *.
    assert (Hcrs : crs t = Some CRS_OUT) by apply transform_crs.
    unfold transform_row at 1. rewrite Hcrs.
    cbn [crs_eqb CRS_OUT Nat.eqb]. rewrite Hnk.
    rewrite (setitem_columns_present _ _ Hfc).
    rewrite (setitem_row_present _ "facility_category" _ _ r1 Hfc Tfc).
    (* what is left is the second tag written over the first *)
    unfold setitem_row at 1. apply existsb_eqb_In in Hft as Hex.
    rewrite Hex. unfold r1, transform_row.
    set (cols0 := map normalize_key (columns gdf)).
    set (r0 := match crs gdf with
               | Some src => if crs_eqb src CRS_OUT then r
                             else reproject_row reproject src CRS_OUT r
               | None => r
               end).
    set (r2 := setitem_row "facility_category" (VStr "education") cols0 r0).
    assert (Hlen : List.length (cells r2)
                   = List.length (setitem_columns "facility_category" cols0)).
    { apply setitem_row_length. unfold r0, cols0. rewrite length_map.
      destruct (crs gdf) as [src |]; [| exact Hrect].
      destruct (crs_eqb src CRS_OUT); exact Hrect. }
    unfold t. rewrite transform_columns. fold cols0.
    rewrite (setitem_row_overwrite "facility_type" (VStr first_name)
               (VStr second_name) _ r2 Hlen).
    reflexivity.
  - unfold t. now rewrite !transform_crs.
Qed.

Lemma transform_normalized gdf (layer_name : string) :
  rectangular gdf -> normalized (transform reproject gdf layer_name).
Proof.
  intros Hrect.
  destruct (transform_columns_fixed _ reproject gdf layer_name)
    as (_ & Hfc & Hft).
  repeat split; try assumption.
  - apply transform_crs.
  - eapply Forall_impl; [| apply transform_all_notnull].
    intros r H E. unfold notnull in H. now rewrite E in H.
  - now apply transform_rectangular.
Qed.

End TransformMore.

(* ===================================================================== *)
(** * Further facts about the combined dataset *)

Lemma union_labels_fresh (ks : list string) :
  forall seen, NoDup (seen ++ ks) -> union_labels seen ks = seen ++ ks.
Proof.
  induction ks as [| k ks IH]; intros seen Hnd; cbn.
  - now rewrite app_nil_r.
  - destruct (existsb (String.eqb k) seen) eqn:E.
    + apply existsb_eqb_In in E. exfalso.
      apply NoDup_remove_2 in Hnd. apply Hnd, in_or_app. now left.
    + rewrite IH; rewrite <- app_assoc; [reflexivity | exact Hnd].
Qed.

Lemma reindex_cells_same (cols : list string) :
  forall cs,
    NoDup cols ->
    List.length cs = List.length cols ->
    map (fun k => lookup_or_null k (combine cols cs)) cols = cs.
Proof.
  induction cols as [| c cols IH]; intros [| x cs] Hnd Hlen;
    cbn in *; try discriminate; [reflexivity |].
  inversion Hnd as [| ? ? Hc Hnd']; subst.
  unfold lookup_or_null at 1. cbn. rewrite String.eqb_refl. f_equal.
  transitivity (map (fun k => lookup_or_null k (combine cols cs)) cols);
    [| apply IH; [assumption | lia]].
  apply map_ext_in. intros k Hk. unfold lookup_or_null. cbn.
  destruct (String.eqb k c) eqn:E; [| reflexivity].
  apply String.eqb_eq in E. subst. contradiction.
Qed.

Section CombinedMore.

Variable Geometry : Type.

Implicit Types (gdf g c : GeoDataFrame Geometry) (r : Row Geometry).
Implicit Types (frames : list (GeoDataFrame Geometry)).

Lemma pd_concat_cases frames c :
  pd_concat frames = Returns c ->
  exists f rest,
    frames = f :: rest
    /\ ((Forall (fun g => NoDup (columns g)) frames
         /\ c = {| columns := union_labels [] (flat_map (@columns _) frames);
                   rows := flat_map
                             (fun g =>
                                map (reindex (columns g)
                                       (union_labels []
                                          (flat_map (@columns _) frames)))
                                    (rows g))
                             frames;
                   crs := crs f |})
        \/ ((forall g, In g frames -> columns g = columns f)
            /\ c = {| columns := columns f;
                      rows := flat_map (@rows _) frames;
                      crs := crs f |})).
Proof.
  unfold pd_concat. destruct frames as [| f rest]; [discriminate |].
  intros H. exists f, rest. split; [reflexivity |].
  destruct (forallb _ (f :: rest)) eqn:Hnd.
  - left. apply all_nodup_Forall in Hnd. split; [exact Hnd |].
    now injection H as <-.
  - destruct (same_columns (f :: rest)) eqn:Hsame; [| discriminate].
    right. split; [now apply same_columns_all |]. now injection H as <-.
Qed.

(** X9: a table with a single layer.  Combining one rectangular frame
    gives that frame again, columns and rows untouched, declared in
    EPSG:4326. *)
Theorem combined_single gdf :
  rectangular gdf ->
  combined [gdf]
  = Returns {| columns := columns gdf; rows := rows gdf;
               crs := Some CRS_OUT |}.
Proof.
  intros Hrect. unfold combined.
  destruct (pd_concat [gdf]) as [c | e |] eqn:E.
  - destruct (pd_concat_cases _ _ E) as (f & rest & [= <- <-] & Hc).
    unfold set_crs. f_equal.
    destruct Hc as [[Hnd ->] | [_ ->]]; cbn [columns rows flat_map].
    + inversion Hnd as [| ? ? Hnd1 _]; subst.
      rewrite !app_nil_r.
      rewrite (union_labels_fresh (columns gdf) []) by exact Hnd1.
      cbn [app]. f_equal.
      rewrite <- (map_id (rows gdf)) at 2. apply map_ext_in.
      intros r Hr. unfold reindex.
      unfold rectangular in Hrect. rewrite Forall_forall in Hrect.
      rewrite reindex_cells_same by auto. now destruct r.
    + now rewrite app_nil_r.
  - exfalso. unfold pd_concat in E.
    destruct (forallb _ [gdf]); [discriminate |].
    cbn in E. discriminate.
  - unfold pd_concat in E.
    destruct (forallb _ [gdf]); [discriminate |].
    cbn in E. discriminate.
Qed.

Lemma Forall_flat_map (A B : Type) (P : B -> Prop) (F : A -> list B)
      (l : list A) :
  (forall a, In a l -> Forall P (F a)) -> Forall P (flat_map F l).
Proof.
  induction l as [| a l IH]; intros H; cbn; [constructor |].
  apply Forall_app. split; [apply H; now left |].
  apply IH. intros b Hb. apply H. now right.
Qed.

Lemma combined_normalized_frames frames c :
  Forall (@normalized _) frames ->
  combined frames = Returns c ->
  normalized c.
Proof.
  intros Hall H. unfold combined in H.
  destruct (pd_concat frames) as [df | e |] eqn:E; try discriminate.
  injection H as <-.
  destruct (pd_concat_cases _ _ E) as (f & rest & -> & Hc).
  rewrite Forall_forall in Hall.
  assert (Hf : normalized f) by (apply Hall; now left).
  destruct Hf as (_ & _ & Hfc & Hft & _).
  unfold normalized, set_crs. cbn [crs columns rows].
  split; [reflexivity |].
  destruct Hc as [[_ ->] | [Hsame ->]]; cbn [columns rows].
  - repeat split.
    + apply Forall_flat_map. intros g Hg. apply Forall_map.
      destruct (Hall g Hg) as (_ & Hgeo & _).
      eapply Forall_impl; [| exact Hgeo]. intros r Hr. exact Hr.
    + apply union_labels_In. right.
      apply (in_flat_map (@columns _) (f :: rest)). exists f.
      split; [now left | exact Hfc].
    + apply union_labels_In. right.
      apply (in_flat_map (@columns _) (f :: rest)). exists f.
      split; [now left | exact Hft].
    + unfold rectangular. cbn [rows columns].
      apply Forall_flat_map. intros g _. apply Forall_map, Forall_forall.
      intros r _. unfold reindex. cbn [cells]. apply length_map.
  - repeat split; try assumption.
    + apply Forall_flat_map. intros g Hg.
      now destruct (Hall g Hg) as (_ & Hgeo & _).
    + unfold rectangular. cbn [rows columns].
      apply Forall_flat_map. intros g Hg.
      destruct (Hall g Hg) as (_ & _ & _ & _ & Hrect).
      unfold rectangular in Hrect. now rewrite (Hsame g Hg) in Hrect.
Qed.

(** X10: the merge keeps what [transform] established.  When every input
    frame is normalised -- EPSG:4326, no null geometry, both metadata
    labels, one cell per column -- and the frames can be combined, the
    combined frame is normalised as well. *)
Theorem combined_keeps_normalized frames c :
  Forall (@normalized _) frames ->
  combined frames = Returns c ->
  crs c = Some CRS_OUT
  /\ Forall (fun r => geometry r <> None) (rows c)
  /\ In "facility_category" (columns c)
  /\ In "facility_type" (columns c)
  /\ rectangular c.
Proof. exact (combined_normalized_frames frames c). Qed.

End CombinedMore.

(* ===================================================================== *)
(** * Further facts about dictionaries and the written files *)

Section DictFacts.

Variable V : Type.

Implicit Types (d : list (string * V)).

Lemma dict_set_absent (k : string) (v : V) d :
  ~ In k (map fst d) -> dict_set k v d = d ++ [(k, v)].
Proof.
  induction d as [| [k' v'] d IH]; intros Hk; cbn; [reflexivity |].
  destruct (String.eqb k k') eqn:E.
  - apply String.eqb_eq in E. subst. exfalso. apply Hk. now left.
  - rewrite IH; [reflexivity |]. intros H. apply Hk. now right.
Qed.

Lemma dict_set_values (P : V -> Prop) (k : string) (v : V) d :
  P v -> Forall P (map snd d) -> Forall P (map snd (dict_set k v d)).
Proof.
  intros Hv. induction d as [| [k' v'] d IH]; intros Hd; cbn.
  - now constructor.
  - inversion Hd as [| ? ? Hv' Hd']; subst.
    destruct (String.eqb k k'); cbn; constructor; auto.
Qed.

Lemma dict_set_nonempty (k : string) (v : V) d : dict_set k v d <> [].
Proof.
  destruct d as [| [k' v'] d]; cbn; [discriminate |].
  destruct (String.eqb k k'); discriminate.
Qed.

Lemma dict_set_key_In (k : string) (v : V) d :
  In k (map fst (dict_set k v d)).
Proof.
  induction d as [| [k' v'] d IH]; cbn [dict_set]; [now left |].
  destruct (String.eqb k k'); cbn [map fst In]; auto.
Qed.

End DictFacts.

Section LoadMore.

Variable Geometry : Type.

Implicit Types (fs : FileSystem Geometry) (gdf : GeoDataFrame Geometry).
Implicit Types (gdfs layers : list (string * GeoDataFrame Geometry)).

Lemma kept_layers_cons (n : string) gdf gdfs layers :
  kept_layers gdfs (filter (fun l => negb (String.eqb (fst l) n)) layers)
  = kept_layers ((n, gdf) :: gdfs) layers.
Proof.
  unfold kept_layers. induction layers as [| [k g] layers IH]; cbn;
    [reflexivity |].
  destruct (String.eqb k n); cbn; [exact IH |].
  destruct (existsb (String.eqb k) (map fst gdfs)); cbn; now rewrite IH.
Qed.

Lemma kept_layers_own gdfs : kept_layers gdfs gdfs = [].
Proof.
  unfold kept_layers.
  assert (H : forall names,
             (forall l, In l gdfs -> In (fst l) names) ->
             filter (fun l => negb (existsb (String.eqb (fst l)) names)) gdfs
             = []).
  { intros names. induction gdfs as [| l rest IH]; intros Hin; cbn;
      [reflexivity |].
    assert (E : existsb (String.eqb (fst l)) names = true)
      by (apply existsb_eqb_In, Hin; now left).
    rewrite E. cbn. apply IH. intros l' Hl'. apply Hin. now right. }
  apply H. intros l Hl. now apply in_map.
Qed.

Lemma kept_layers_idem gdfs layers :
  kept_layers gdfs (kept_layers gdfs layers) = kept_layers gdfs layers.
Proof.
  unfold kept_layers. induction layers as [| l layers IH]; cbn;
    [reflexivity |].
  destruct (existsb (String.eqb (fst l)) (map fst gdfs)) eqn:E; cbn;
    [exact IH |].
  now rewrite E, IH.
Qed.

Lemma layers_after_eq gdfs :
  forall layers,
    NoDup (map fst gdfs) ->
    layers_after gdfs layers = kept_layers gdfs layers ++ gdfs.
Proof.
  induction gdfs as [| [n g] gdfs IH]; intros layers Hnd.
  - unfold layers_after, kept_layers. cbn.
    rewrite app_nil_r. induction layers as [| l layers IHl]; cbn;
      [reflexivity | now rewrite <- IHl].
  - cbn in Hnd. inversion Hnd as [| ? ? Hn Hnd']; subst.
    unfold layers_after. cbn [fold_left fst snd].
    fold (layers_after gdfs (set_layer n g layers)).
    rewrite IH by exact Hnd'. unfold set_layer.
    unfold kept_layers at 1. rewrite filter_app. cbn [filter fst].
    assert (E : existsb (String.eqb n) (map fst gdfs) = false).
    { destruct (existsb (String.eqb n) (map fst gdfs)) eqn:E;
        [| reflexivity].
      apply existsb_eqb_In in E. contradiction. }
    rewrite E. cbn [negb].
    fold (kept_layers gdfs
            (filter (fun l => negb (String.eqb (fst l) n)) layers)).
    rewrite (kept_layers_cons n g). rewrite <- app_assoc. reflexivity.
Qed.

Lemma load_outputs_container gdfs fs :
  gdfs <> [] ->
  container_layers (load_outputs gdfs fs)
  = layers_after gdfs (container_layers fs).
Proof.
  intros Hne. unfold container_layers at 1.
  now rewrite load_outputs_gpkg.
Qed.

(** X11: after [load_outputs] the container holds first the layers it
    held before under names that were not written, in their order, then
    the written frames, one layer each, in the order of the mapping. *)
Theorem load_outputs_container_layout gdfs fs :
  gdfs <> [] ->
  NoDup (map fst gdfs) ->
  file_at (load_outputs gdfs fs) gpkg_path
  = Some (GPKGFile (kept_layers gdfs (container_layers fs) ++ gdfs)).
Proof.
  intros Hne Hnd. rewrite load_outputs_gpkg by exact Hne.
  now rewrite layers_after_eq.
Qed.

(** X12: writing the same frames a second time changes no file and no
    directory. *)
Theorem load_outputs_rerun gdfs fs :
  NoDup (map fst gdfs) ->
  forall p,
    file_at (load_outputs gdfs (load_outputs gdfs fs)) p
    = file_at (load_outputs gdfs fs) p
    /\ is_dir (load_outputs gdfs (load_outputs gdfs fs)) p
       = is_dir (load_outputs gdfs fs) p.
Proof.
  intros Hnd p. split; [| apply load_outputs_is_dir].
  destruct gdfs as [| ng rest] eqn:Egdfs; [reflexivity |].
  rewrite <- Egdfs in *.
  assert (Hne : gdfs <> []) by (rewrite Egdfs; discriminate).
  destruct (string_dec p gpkg_path) as [-> | Hp].
  - rewrite !load_outputs_gpkg by exact Hne.
    rewrite load_outputs_container by exact Hne.
    rewrite !layers_after_eq by exact Hnd.
    unfold kept_layers at 1. rewrite filter_app.
    fold (kept_layers gdfs (kept_layers gdfs (container_layers fs))).
    fold (kept_layers gdfs gdfs).
    now rewrite kept_layers_idem, kept_layers_own, app_nil_r.
  - destruct (in_dec string_dec p (map (fun ng => geojson_path (fst ng)) gdfs))
      as [Hin | Hout].
    + apply in_map_iff in Hin as ([name gdf] & <- & Hin). cbn [fst].
      now rewrite !(load_outputs_geojson _ gdfs _ name gdf Hnd Hin).
    + assert (Hn : forall name, In name (map fst gdfs) ->
                                p <> geojson_path name).
      { intros name Hname ->. apply Hout.
        apply in_map_iff in Hname as (ng' & <- & Hng).
        apply in_map_iff. now exists ng'. }
      now rewrite !load_outputs_elsewhere by assumption.
Qed.

End LoadMore.

(* ===================================================================== *)
(** * Further facts about the run *)

Section MainMore.

Variable Geometry : Type.
Variable reproject : CRS -> CRS -> Geometry -> Geometry.
Variable Service : Type.
Variable http_get :
  forall (layer_id offset count : nat),
    Service -> HttpResult Geometry * Service.

Implicit Types (fs : FileSystem Geometry) (s : Service).
Implicit Types (layers : list (string * nat)).
Implicit Types (all_layers acc : list (string * GeoDataFrame Geometry)).

Lemma extract_layer_rectangular (fuel layer_id : nat) s s'
      (gdf : GeoDataFrame Geometry) :
  extract_layer http_get fuel layer_id s = (Returns gdf, s') ->
  rectangular gdf.
Proof.
  unfold extract_layer, extract_layer_paged.
  destruct (extract_loop http_get PAGE_SIZE fuel layer_id [] 0 s)
    as [[[features data] | e0 |] s1]; try discriminate.
  destruct features; [discriminate |]. intros [= <- _].
  apply from_features_rectangular.
Qed.

Lemma extract_transform_all_normalized (fuel : nat) layers :
  forall acc s all_layers s',
    extract_transform_all reproject http_get fuel layers acc s
    = (Returns all_layers, s') ->
    Forall (@normalized _) (map snd acc) ->
    Forall (@normalized _) (map snd all_layers).
Proof.
  induction layers as [| [name layer_id] layers IH];
    intros acc s all_layers s' H Hacc; cbn [extract_transform_all] in H.
  - now injection H as <- _.
  - destruct (extract_layer http_get fuel layer_id s)
      as [[gdf | e |] s1] eqn:E; try discriminate.
    eapply IH; [exact H |]. apply dict_set_values; [| exact Hacc].
    apply transform_normalized. eapply extract_layer_rectangular; eauto.
Qed.

Lemma extract_transform_all_keys (fuel : nat) layers :
  forall acc s all_layers s',
    extract_transform_all reproject http_get fuel layers acc s
    = (Returns all_layers, s') ->
    NoDup (map fst acc ++ map fst layers) ->
    map fst all_layers = map fst acc ++ map fst layers.
Proof.
  induction layers as [| [name layer_id] layers IH];
    intros acc s all_layers s' H Hnd; cbn [extract_transform_all] in H.
  - injection H as <- _. cbn. now rewrite app_nil_r.
  - destruct (extract_layer http_get fuel layer_id s)
      as [[gdf | e |] s1] eqn:E; try discriminate.
    cbn [map fst] in Hnd.
    assert (Hname : ~ In name (map fst acc)).
    { intros Hin. apply NoDup_remove_2 in Hnd. apply Hnd, in_or_app.
      now left. }
    rewrite dict_set_absent in H by exact Hname.
    apply IH in H.
    + rewrite H, map_app, <- app_assoc. reflexivity.
    + rewrite map_app, <- app_assoc. exact Hnd.
Qed.

(** X13: every frame that [main] hands to the writer is normalised:
    declared in EPSG:4326, without null geometry, with both metadata
    labels and one cell per column -- the per-layer frames and the
    combined one alike. *)
Theorem main_on_writes_normalized layers (fuel : nat) s s' fs fs' :
  main_on reproject http_get layers fuel s fs = (Returns tt, s', fs') ->
  exists written,
    fs' = load_outputs written fs
    /\ Forall (@normalized _) (map snd written)
    /\ In "education_all" (map fst written).
Proof.
  unfold main_on.
  destruct (extract_transform_all reproject http_get fuel layers [] s)
    as [[all_layers | e |] s1] eqn:E; try discriminate.
  destruct (combined (map snd all_layers)) as [c | e |] eqn:Ec;
    try discriminate.
  intros [= <- <-].
  exists (dict_set "education_all" c all_layers).
  assert (Hall : Forall (@normalized _) (map snd all_layers)).
  { eapply extract_transform_all_normalized; [exact E | constructor]. }
  split; [reflexivity |]. split.
  - apply dict_set_values; [| exact Hall].
    eapply combined_normalized_frames; eauto.
  - apply dict_set_key_In.
Qed.

End MainMore.

Section MainFiles.

Variable Geometry : Type.
Variable reproject : CRS -> CRS -> Geometry -> Geometry.
Variable Service : Type.
Variable http_get :
  forall (layer_id offset count : nat),
    Service -> HttpResult Geometry * Service.

Implicit Types (fs : FileSystem Geometry) (s : Service).
Implicit Types (layers : list (string * nat)).
Implicit Types (all_layers : list (string * GeoDataFrame Geometry)).

(** X16: a successful run.  For a layer table with distinct names, none
    of them ["education_all"], [main] collects one frame per configured
    name, in table order, and writes each of them and the combined frame
    (under ["education_all"]) both as the GeoJSON file of its name and as
    the layer of its name in the container. *)
Theorem main_on_writes_layers layers (fuel : nat) s s1 fs all_layers
        (c : GeoDataFrame Geometry) :
  NoDup (map fst layers) ->
  ~ In "education_all" (map fst layers) ->
  extract_transform_all reproject http_get fuel layers [] s
  = (Returns all_layers, s1) ->
  combined (map snd all_layers) = Returns c ->
  let written := all_layers ++ [("education_all", c)] in
  let out := load_outputs written fs in
  main_on reproject http_get layers fuel s fs = (Returns tt, s1, out)
  /\ map fst all_layers = map fst layers
  /\ (forall name gdf, In (name, gdf) written ->
        file_at out (geojson_path name) = Some (GeoJSONFile gdf)
        /\ dict_get name (container_layers out) = Some gdf).
Proof.
  intros Hnd Hea Hex Hc written out.
  assert (Hkeys : map fst all_layers = map fst layers)
    by (apply (extract_transform_all_keys _ reproject _ http_get fuel layers
                 [] s all_layers s1 Hex); exact Hnd).
  assert (Hset : dict_set "education_all" c all_layers = written).
  { apply dict_set_absent. now rewrite Hkeys. }
  assert (Hndw : NoDup (map fst written)).
  { unfold written. rewrite map_app, Hkeys. cbn [map fst].
    apply NoDup_app; [exact Hnd | repeat constructor; intros [] |].
    intros k Hk [<- | []]. contradiction. }
  assert (Hne : written <> []).
  { unfold written. intros E. apply app_eq_nil in E as [_ E]. discriminate. }
  split; [| split; [exact Hkeys |]].
  - unfold main_on. rewrite Hex, Hc, Hset. reflexivity.
  - intros name gdf Hin. split.
    + now apply load_outputs_geojson.
    + unfold out. rewrite load_outputs_container by exact Hne.
      now apply layers_after_written.
Qed.

End MainFiles.

Section PagedRun.

Variable Geometry : Type.
Variable reproject : CRS -> CRS -> Geometry -> Geometry.
Variable records : nat -> list (Feature Geometry).
Variable service_crs : option CRS.

Lemma PAGE_SIZE_pos : 0 < PAGE_SIZE.
Proof. unfold PAGE_SIZE. apply Nat.lt_0_succ. Qed.

Lemma extract_layer_on_paged (fuel layer_id : nat) (log : list Request) :
  records layer_id <> [] ->
  pages (List.length (records layer_id)) PAGE_SIZE < fuel ->
  extract_layer (paged_get records service_crs) fuel layer_id log
  = (Returns (from_features (records layer_id) service_crs),
     log ++ page_requests layer_id PAGE_SIZE
              (pages (List.length (records layer_id)) PAGE_SIZE + 1)).
Proof.
  intros Hne Hfuel. unfold extract_layer, extract_layer_paged.
  rewrite (extract_loop_paged _ records service_crs PAGE_SIZE layer_id
             PAGE_SIZE_pos fuel 0 [] log)
    by (rewrite Nat.sub_0_r; exact Hfuel).
  rewrite Nat.sub_0_r. cbn [app skipn].
  unfold page_requests.
  destruct (records layer_id) as [| f rest]; [congruence | reflexivity].
Qed.

(** X17: against the paged service, when every configured layer holds at
    least one record and the request budget covers each layer, the layers
    are extracted one after the other in table order, each to its end
    before the next begins, and the frame collected under each name is the
    transform of all records of its layer. *)
Theorem paged_layers_collected (fuel : nat) (layers : list (string * nat)) :
  forall (acc : list (string * GeoDataFrame Geometry)) (log : list Request),
    (forall name layer_id, In (name, layer_id) layers ->
       records layer_id <> []
       /\ pages (List.length (records layer_id)) PAGE_SIZE < fuel) ->
    extract_transform_all reproject (paged_get records service_crs) fuel
                          layers acc log
    = (Returns (collected reproject
                  (fun layer_id =>
                     from_features (records layer_id) service_crs)
                  layers acc),
       log ++ flat_map
                (fun nl =>
                   page_requests (snd nl) PAGE_SIZE
                     (pages (List.length (records (snd nl))) PAGE_SIZE + 1))
                layers).
Proof.
  induction layers as [| [name layer_id] layers IH]; intros acc log Hall.
  - cbn. now rewrite app_nil_r.
  - destruct (Hall name layer_id ltac:(now left)) as [Hne Hfuel].
    cbn [extract_transform_all].
    rewrite extract_layer_on_paged by assumption.
    rewrite IH by (intros n l Hin; apply (Hall n l); now right).
    unfold collected. cbn [fold_left flat_map fst snd].
    now rewrite <- app_assoc.
Qed.

End PagedRun.

(* ===================================================================== *)
(** * Facts about etl_script.py *)

(** X18: the target month is the calendar month after the given one: for
    a month between 1 and 12 the result is again a month between 1 and 12,
    one month later, December rolling over to January of the next year. *)
Theorem target_year_month_next (year month : Z) :
  (1 <= month <= 12)%Z ->
  let target := target_year_month year month in
  (1 <= snd target <= 12)%Z
  /\ (12 * fst target + snd target = 12 * year + month + 1)%Z
  /\ (month = 12%Z -> target = ((year + 1)%Z, 1%Z)).
Proof.
  intros Hm. unfold target_year_month. cbn zeta.
  destruct (Z.gtb_spec (month + 1) 12); cbn [fst snd].
  - repeat split; try lia. 
  - repeat split; try lia.
Qed.

Section EtlFacts.

Variable Geometry : Type.
Variable Service : Type.
Variable http_get_all : nat -> Service -> HttpResult Geometry * Service.

Implicit Types (env : string -> option string) (s : Service).
Implicit Types (files : JsonFiles Geometry).

(** X19: what the script does depends on its environment only through
    [IBM_DOCKER_PSQL_BUILDING], and not on the current date: the target
    month and the Neon connection string are computed and never used. *)
Theorem etl_script_ignores_date env env' (year month year' month' : Z)
        s files :
  env "IBM_DOCKER_PSQL_BUILDING" = env' "IBM_DOCKER_PSQL_BUILDING" ->
  etl_script http_get_all env year month s files
  = etl_script http_get_all env' year' month' s files.
Proof.
  intros Henv. unfold etl_script.
  destruct (school_building_module http_get_all s files)
    as [[[u | e |] s1] files1]; try reflexivity.
  rewrite <- Henv.
  destruct (env "IBM_DOCKER_PSQL_BUILDING") as [[| ch conn] |]; reflexivity.
Qed.

(** X20: importing the module comes first.  If its request fails the
    script ends with that HTTP error and no file, whatever the
    environment.  If it succeeds, ["schools.geojson"] holds the response
    body and no other file changes; the script then exits with status 1
    when the connection variable is missing or empty, and otherwise ends
    on line 55 with the attribute error for [monarch_etl_multi_day_scan],
    which the imported module does not define.  Either way exactly the one
    request of the import has been sent. *)
Theorem etl_script_fetches_first env (year month : Z) s files :
  (forall status s1,
      http_get_all 76 s = (HttpFail Geometry status, s1) ->
      etl_script http_get_all env year month s files
      = (Ends (Raises (HTTPError status)), s1, files))
  /\ (forall data s1,
        http_get_all 76 s = (HttpOk data, s1) ->
        exists files',
          files' "schools.geojson" = Some data
          /\ (forall p, p <> "schools.geojson" -> files' p = files p)
          /\ (env "IBM_DOCKER_PSQL_BUILDING" = None
              \/ env "IBM_DOCKER_PSQL_BUILDING" = Some "" ->
              etl_script http_get_all env year month s files
              = (SystemExit 1, s1, files'))
          /\ (forall conn,
                env "IBM_DOCKER_PSQL_BUILDING" = Some conn -> conn <> "" ->
                etl_script http_get_all env year month s files
                = (AttributeError "monarch_etl_multi_day_scan", s1, files'))).
Proof.
  split.
  - intros status s1 H. unfold etl_script, school_building_module.
    now rewrite H.
  - intros data s1 H.
    exists (fun p => if String.eqb p "schools.geojson" then Some data
                     else files p).
    split; [reflexivity |]. split.
    + intros p Hp. apply String.eqb_neq in Hp. now rewrite Hp.
    + unfold etl_script, school_building_module. rewrite H. split.
      * intros [-> | ->]; reflexivity.
      * intros conn -> Hconn. destruct conn as [| ch conn]; [congruence |].
        reflexivity.
Qed.

End EtlFacts.

(* ===================================================================== *)
(** * The renaming for labels of any alphabet *)

Lemma underscore_char_spec (c : ascii) :
  underscore_char c
  = if (Ascii.eqb c " " || Ascii.eqb c "-")%bool then "_"%char else c.
Proof. destruct c as [[] [] [] [] [] [] [] []]; reflexivity. Qed.

Lemma no_separator_underscore_char (c : ascii) :
  no_separator (underscore_char c) = true.
Proof. destruct c as [[] [] [] [] [] [] [] []]; reflexivity. Qed.

Lemma ascii_normalize_char (c : ascii) :
  (nat_of_ascii c <? 128) = true ->
  (nat_of_ascii (normalize_char c) <? 128) = true.
Proof.
  destruct c as [[] [] [] [] [] [] [] []]; cbv; intros H;
    solve [reflexivity | discriminate H].
Qed.

Lemma normalize_key_with_chars (lower : string -> string) (s : string) :
  normalize_key_with lower s = str_map underscore_char (lower s).
Proof.
  unfold normalize_key_with, str_replace. generalize (lower s). intros t.
  induction t as [| c t IH]; cbn; [reflexivity |].
  rewrite IH. reflexivity.
Qed.

Lemma normalize_key_is_ascii (s : string) :
  is_ascii s = true -> is_ascii (normalize_key s) = true.
Proof.
  rewrite normalize_key_chars. unfold is_ascii.
  induction s as [| c s IH]; cbn; [reflexivity |].
  rewrite !andb_true_iff. intros [Hc Hs].
  split; [now apply ascii_normalize_char | auto].
Qed.

Section KeysWith.

Variable Geometry : Type.

(** Python's [str.lower], of which only its action on ASCII labels is
    used: there it lower-cases the letters A-Z and nothing else. *)
Variable lower : string -> string.
Hypothesis lower_ascii :
  forall s, is_ascii s = true -> lower s = str_lower s.

Variable reproject : CRS -> CRS -> Geometry -> Geometry.

Implicit Types (gdf : GeoDataFrame Geometry).

Lemma normalize_key_with_ascii (s : string) :
  is_ascii s = true -> normalize_key_with lower s = normalize_key s.
Proof.
  intros H. unfold normalize_key_with, normalize_key.
  now rewrite lower_ascii.
Qed.

Lemma transform_with_columns gdf (layer_name : string) :
  columns (transform_with lower reproject gdf layer_name)
  = setitem_columns "facility_type"
      (setitem_columns "facility_category"
         (map (normalize_key_with lower) (columns gdf))).
Proof.
  unfold transform_with, drop_null_geometry. cbn [crs columns].
  destruct (crs gdf) as [src |]; [unfold to_crs |];
    try destruct (crs_eqb src CRS_OUT); reflexivity.
Qed.

(** C7: every attribute label is rewritten, in place and in order, into
    its lower-cased form in which every space and every hyphen has become
    an underscore and no other character has changed; the only other
    change to the labels is the two metadata columns.  On a label of ASCII
    characters the lower-casing turns the letters A-Z into a-z and leaves
    the rest, so that ["School Name"] becomes ["school_name"]. *)
Theorem transform_with_normalizes_keys gdf (layer_name : string) :
  columns (transform_with lower reproject gdf layer_name)
  = setitem_columns "facility_type"
      (setitem_columns "facility_category"
         (map (normalize_key_with lower) (columns gdf)))
  /\ firstn (List.length (columns gdf))
            (columns (transform_with lower reproject gdf layer_name))
     = map (normalize_key_with lower) (columns gdf)
  /\ (forall s, normalize_key_with lower s
                = str_map underscore_char (lower s))
  /\ (forall c, underscore_char c
                = if (Ascii.eqb c " " || Ascii.eqb c "-")%bool then "_"%char
                  else c)
  /\ (forall s, is_ascii s = true ->
                normalize_key_with lower s = str_map normalize_char s)
  /\ (forall c, normalize_char c
                = if (Ascii.eqb c " " || Ascii.eqb c "-")%bool then "_"%char
                  else lower_char c)
  /\ (forall c, lower_char c
                = if ((65 <=? nat_of_ascii c)
                      && (nat_of_ascii c <=? 90))%bool
                  then ascii_of_nat (nat_of_ascii c + 32) else c)
  /\ normalize_key_with lower "School Name" = "school_name".
Proof.
  split; [apply transform_with_columns |]. split.
  - rewrite transform_with_columns.
    rewrite <- (length_map (normalize_key_with lower) (columns gdf)).
    apply setitem_columns_twice_prefix.
  - split; [apply normalize_key_with_chars |].
    split; [exact underscore_char_spec |]. split.
    + intros s Hs. rewrite normalize_key_with_ascii by exact Hs.
      apply normalize_key_chars.
    + split; [exact normalize_char_spec |].
      split; [exact lower_char_spec |].
      now rewrite normalize_key_with_ascii.
Qed.

(** X5: a normalised label holds no space and no hyphen, whatever the
    alphabet of the label it comes from.  For a label of ASCII characters
    it holds no letter A-Z either and is as long as the label it comes
    from; the ASCII labels the renaming leaves alone are exactly those
    without space, hyphen and letter A-Z, so normalising such a label
    twice is normalising it once. *)
Theorem normalize_key_with_plain (s : string) :
  str_forallb no_separator (normalize_key_with lower s) = true
  /\ (is_ascii s = true ->
      str_forallb plain_char (normalize_key_with lower s) = true
      /\ String.length (normalize_key_with lower s) = String.length s
      /\ (normalize_key_with lower s = s
          <-> str_forallb plain_char s = true)
      /\ normalize_key_with lower (normalize_key_with lower s)
         = normalize_key_with lower s).
Proof.
  split.
  - rewrite normalize_key_with_chars. generalize (lower s). intros t.
    induction t as [| c t IH]; cbn; [reflexivity |].
    now rewrite no_separator_underscore_char, IH.
  - intros Hs. rewrite !(normalize_key_with_ascii s Hs).
    rewrite (normalize_key_with_ascii (normalize_key s))
      by now apply normalize_key_is_ascii.
    exact (normalize_key_ascii_plain s).
Qed.

End KeysWith.

Lemma transform_with_str_lower (Geometry : Type)
      (reproject : CRS -> CRS -> Geometry -> Geometry)
      (gdf : GeoDataFrame Geometry) (layer_name : string) :
  transform_with str_lower reproject gdf layer_name
  = transform reproject gdf layer_name.
Proof. reflexivity. Qed.

(* ===================================================================== *)
(** * Writes that can fail *)

Section FailingWritesFacts.

Variable Geometry : Type.
Variable to_file_ok :
  string -> option string -> GeoDataFrame Geometry -> FileSystem Geometry
  -> bool.

Implicit Types (fs : FileSystem Geometry) (gdf : GeoDataFrame Geometry).
Implicit Types (gdfs done rest : list (string * GeoDataFrame Geometry)).

Lemma load_outputs_io_loaded gdfs :
  forall fs fs',
    load_outputs_io to_file_ok gdfs fs = (Loaded, fs') ->
    fs' = load_outputs gdfs fs.
Proof.
  induction gdfs as [| [name gdf] gdfs IH]; intros fs fs' H;
    cbn [load_outputs_io load_outputs] in *.
  - now injection H as <-.
  - destruct (to_file_ok (geojson_path name) None gdf fs);
      [| discriminate].
    destruct (to_file_ok gpkg_path (Some name) gdf _); [| discriminate].
    now apply IH.
Qed.

Lemma load_outputs_io_all_ok gdfs :
  (forall p l gdf fs, to_file_ok p l gdf fs = true) ->
  forall fs, load_outputs_io to_file_ok gdfs fs = (Loaded, load_outputs gdfs fs).
Proof.
  intros Hok. induction gdfs as [| [name gdf] gdfs IH]; intros fs;
    cbn [load_outputs_io load_outputs]; [reflexivity |].
  rewrite !Hok. apply IH.
Qed.

Lemma load_outputs_io_failed gdfs :
  forall fs fs' (p : string) (l : option string),
    load_outputs_io to_file_ok gdfs fs = (ToFileFailed p l, fs') ->
    exists done name gdf rest,
      gdfs = done ++ (name, gdf) :: rest
      /\ ((p = geojson_path name /\ l = None
           /\ fs' = load_outputs done fs)
          \/ (p = gpkg_path /\ l = Some name
              /\ fs' = to_file_geojson (geojson_path name) gdf
                                       (load_outputs done fs))).
Proof.
  induction gdfs as [| [name gdf] gdfs IH]; intros fs fs' p l H;
    cbn [load_outputs_io] in H; [discriminate |].
  destruct (to_file_ok (geojson_path name) None gdf fs).
  - destruct (to_file_ok gpkg_path (Some name) gdf _).
    + destruct (IH _ _ _ _ H) as (done & n & g & rest & -> & Hfs).
      exists ((name, gdf) :: done), n, g, rest.
      split; [reflexivity |]. cbn [load_outputs]. exact Hfs.
    + injection H as <- <- <-.
      exists [], name, gdf, gdfs. split; [reflexivity |]. right. auto.
  - injection H as <- <- <-.
    exists [], name, gdf, gdfs. split; [reflexivity |]. left. auto.
Qed.

Variable reproject : CRS -> CRS -> Geometry -> Geometry.
Variable Service : Type.
Variable http_get :
  forall (layer_id offset count : nat),
    Service -> HttpResult Geometry * Service.

(** X14: how a run with failing writes ends.  When [main] ends without a
    write failure it ends as the run with working writes does, and if
    that is not a normal return -- an error or an endless loop in
    extraction, an error in the merge -- the file system is exactly as it
    was.  When a [to_file] call fails, the run stops there without
    rollback: every frame before the failing one has been written in
    full, and if it is the GeoPackage write that fails, the GeoJSON file
    of that frame as well.  With writes that never fail there is no write
    failure. *)
Theorem main_io_outcomes (layers : list (string * nat)) (fuel : nat)
        (s s' : Service) fs fs' (e : RunEnd) :
  main_io to_file_ok reproject http_get layers fuel s fs = (e, s', fs') ->
  (forall o, e = Ran o ->
     main_on reproject http_get layers fuel s fs = (o, s', fs')
     /\ (o <> Returns tt -> fs' = fs))
  /\ (forall p l, e = WriteFailed p l ->
        exists all_layers c done name gdf rest,
          extract_transform_all reproject http_get fuel layers [] s
          = (Returns all_layers, s')
          /\ combined (map snd all_layers) = Returns c
          /\ dict_set "education_all" c all_layers
             = done ++ (name, gdf) :: rest
          /\ ((p = geojson_path name /\ l = None
               /\ fs' = load_outputs done fs)
              \/ (p = gpkg_path /\ l = Some name
                  /\ fs' = to_file_geojson (geojson_path name) gdf
                                           (load_outputs done fs))))
  /\ ((forall p l gdf fs0, to_file_ok p l gdf fs0 = true) ->
      exists o, e = Ran o).
Proof.
  unfold main_io, main_on.
  destruct (extract_transform_all reproject http_get fuel layers [] s)
    as [[all_layers | err |] s1] eqn:Hex.
  - destruct (combined (map snd all_layers)) as [c | err |] eqn:Hc.
    + destruct (load_outputs_io to_file_ok
                  (dict_set "education_all" c all_layers) fs)
        as [[| p0 l0] fs0] eqn:Hload; intros [= <- <- <-].
      * apply load_outputs_io_loaded in Hload. subst fs0.
        repeat split.
        -- now injection H as <-.
        -- injection H as <-. congruence.
        -- intros p l H. discriminate H.
        -- intros _. eauto.
      * repeat split.
        -- discriminate H.
        -- discriminate H.
        -- intros p l [= <- <-].
           destruct (load_outputs_io_failed _ _ _ _ _ Hload)
             as (done & name & gdf & rest & Hsplit & Hfs).
           exists all_layers, c, done, name, gdf, rest. auto.
        -- intros Hok.
           rewrite (load_outputs_io_all_ok _ Hok) in Hload. discriminate.
    + intros [= <- <- <-]. repeat split.
      * now injection H as <-.
      * intros p l H. discriminate H.
      * eauto.
    + intros [= <- <- <-]. repeat split.
      * now injection H as <-.
      * intros p l H. discriminate H.
      * eauto.
  - intros [= <- <- <-]. repeat split.
    + now injection H as <-.
    + intros p l H. discriminate H.
    + eauto.
  - intros [= <- <- <-]. repeat split.
    + now injection H as <-.
    + intros p l H. discriminate H.
    + eauto.
Qed.

End FailingWritesFacts.

(** Witness of [extract_layer_returns_sound] on the sample service. *)
Lemma extract_layer_returns_sound_witness :
  rows (from_features (sample_records 76) None) <> []
  /\ rectangular (from_features (sample_records 76) None)
  /\ NoDup (columns (from_features (sample_records 76) None)).
Proof.
  refine (extract_layer_returns_sound Point _
            (paged_get sample_records None) 2 5 76 [] _ _ _).
  reflexivity.
Defined.

(** Witness of [scripted_stops_at_first_empty]: the empty page at offset 2
    hides the record at offset 4, and the CRS is the one of the empty
    page. *)
Lemma scripted_stops_at_first_empty_witness :
  extract_layer_paged (scripted_get flaky_answer) 2 5 76 []
  = (Returns (from_features [school_a; school_c] (Some (EPSG 3857))),
     [(76, 0, 2); (76, 2, 2)]).
Proof.
  refine (scripted_stops_at_first_empty Point flaky_answer 2 76 1 5 []
            {| d_features := Some []; d_crs := Some (EPSG 3857) |}
            _ _ _ _ _).
  - lia.
  - intros i Hi. replace i with 0 by lia.
    eexists. split; [reflexivity | discriminate].
  - reflexivity.
  - reflexivity.
  - lia.
Defined.

(** Witness of [scripted_fails_at_first_error]. *)
Lemma scripted_fails_at_first_error_witness :
  extract_layer_paged (scripted_get failing_answer) 2 5 76 []
  = (Raises (HTTPError 503), [(76, 0, 2); (76, 2, 2)]).
Proof.
  refine (scripted_fails_at_first_error Point failing_answer 2 76 1 5 503 []
            _ _ _).
  - intros i Hi. replace i with 0 by lia.
    eexists. split; [reflexivity | discriminate].
  - reflexivity.
  - lia.
Defined.

(** Witness of [scripted_never_ends]. *)
Lemma scripted_never_ends_witness :
  extract_layer_paged (scripted_get stuck_answer) 2 3 76 []
  = (OutOfFuel, [(76, 0, 2); (76, 2, 2); (76, 4, 2)]).
Proof.
  refine (scripted_never_ends Point stuck_answer 2 76 3 [] _).
  intros i. eexists. split; [reflexivity | discriminate].
Defined.

(** Witness of [from_features_round_trip]: the third school has a city,
    the first has none. *)
Lemma from_features_round_trip_witness :
  field (columns schools_raw) (row_of_feature (columns schools_raw) school_c)
        "City" = Some (VStr "Ames").
Proof.
  refine (proj1 (from_features_round_trip Point (sample_records 76)
                   (Some (EPSG 3857)) school_c "City" _)
            (VStr "Ames") _).
  - cbn. right. right. left. reflexivity.
  - reflexivity.
Defined.

(** Witness of [transform_tags_rows]. *)
Lemma transform_tags_rows_witness :
  Forall (fun r' =>
            field (columns (transform swap_axes schools_raw "schools")) r'
                  "facility_category" = Some (VStr "education")
            /\ field (columns (transform swap_axes schools_raw "schools")) r'
                     "facility_type" = Some (VStr "schools"))
         (rows (transform swap_axes schools_raw "schools")).
Proof.
  apply (transform_tags_rows Point swap_axes schools_raw "schools").
  repeat constructor.
Defined.

(** Witness of [transform_retag]. *)
Lemma transform_retag_witness :
  transform swap_axes (transform swap_axes schools_raw "schools") "colleges"
  = transform swap_axes schools_raw "colleges".
Proof.
  apply (transform_retag Point swap_axes schools_raw "schools" "colleges").
  repeat constructor.
Defined.

Lemma colleges_raw_rectangular : rectangular colleges_raw.
Proof. repeat constructor. Qed.

Lemma sample_frames_normalized :
  Forall (@normalized Point) (map snd sample_outputs).
Proof.
  unfold sample_outputs. cbn [map snd].
  constructor; [| constructor; [| constructor]];
    apply transform_normalized; repeat constructor.
Qed.

Lemma sample_names_nodup : NoDup (map fst sample_outputs).
Proof. apply nodupb_NoDup. reflexivity. Qed.

(** Witness of [combined_single]. *)
Lemma combined_single_witness :
  combined [schools_raw]
  = Returns {| columns := columns schools_raw; rows := rows schools_raw;
               crs := Some CRS_OUT |}.
Proof.
  apply (combined_single Point schools_raw). repeat constructor.
Defined.

(** Witness of [combined_keeps_normalized]. *)
Lemma combined_keeps_normalized_witness :
  exists c, combined (map snd sample_outputs) = Returns c
            /\ crs c = Some CRS_OUT /\ rectangular c.
Proof.
  eexists. split; [reflexivity |].
  pose proof (combined_keeps_normalized Point (map snd sample_outputs) _
                sample_frames_normalized eq_refl) as H.
  split; [exact (proj1 H) | exact (proj2 (proj2 (proj2 (proj2 H))))].
Defined.

(** Witness of [load_outputs_container_layout]: the layer ["old"] stays
    in front, the stale layer ["schools"] is replaced. *)
Lemma load_outputs_container_layout_witness :
  file_at (load_outputs sample_outputs stale_fs) gpkg_path
  = Some (GPKGFile (("old", colleges_raw) :: sample_outputs)).
Proof.
  rewrite (load_outputs_container_layout Point sample_outputs stale_fs
             ltac:(discriminate) sample_names_nodup).
  reflexivity.
Defined.

(** Witness of [load_outputs_rerun]. *)
Lemma load_outputs_rerun_witness :
  file_at (load_outputs sample_outputs (load_outputs sample_outputs stale_fs))
          gpkg_path
  = file_at (load_outputs sample_outputs stale_fs) gpkg_path.
Proof.
  exact (proj1 (load_outputs_rerun Point sample_outputs stale_fs
                  sample_names_nodup gpkg_path)).
Defined.

(** Witness of [main_on_writes_normalized]: both sample layers. *)
Lemma main_on_writes_normalized_witness :
  exists written,
    snd (main_on swap_axes (paged_get sample_records None) two_layers 3 []
                 empty_fs)
    = load_outputs written empty_fs
    /\ Forall (@normalized _) (map snd written)
    /\ In "education_all" (map fst written).
Proof.
  refine (main_on_writes_normalized Point swap_axes _
            (paged_get sample_records None) two_layers 3 [] _ empty_fs _ _).
  vm_compute. reflexivity.
Defined.

(** Witness of [main_on_writes_layers]: three GeoJSON files and a
    container of three layers. *)
Lemma main_on_writes_layers_witness :
  exists all_layers c log,
    main_on swap_axes (paged_get sample_records None) two_layers 3 []
            empty_fs
    = (Returns tt, log,
       load_outputs (all_layers ++ [("education_all", c)]) empty_fs)
    /\ map fst all_layers = ["schools"; "colleges"]
    /\ List.length (rows c) = 3.
Proof.
  eexists. eexists. eexists.
  pose proof (main_on_writes_layers Point swap_axes _
                (paged_get sample_records None) two_layers 3 [] _ empty_fs
                _ _
                ltac:(apply nodupb_NoDup; reflexivity)
                ltac:(cbn; intros [H | [H | []]]; discriminate H)
                ltac:(vm_compute; reflexivity)
                ltac:(vm_compute; reflexivity)) as H.
  cbn zeta in H. destruct H as (Hmain & Hkeys & _).
  split; [exact Hmain |]. split; [exact Hkeys | reflexivity].
Defined.

(** Witness of [paged_layers_collected]: two requests per layer, layer 76
    first. *)
Lemma paged_layers_collected_witness :
  extract_transform_all swap_axes (paged_get sample_records None) 3
                        two_layers [] []
  = (Returns (collected swap_axes
                (fun layer_id => from_features (sample_records layer_id) None)
                two_layers []),
     [(76, 0, 2000); (76, 2000, 2000); (74, 0, 2000); (74, 2000, 2000)]).
Proof.
  rewrite (paged_layers_collected Point swap_axes sample_records None 3
             two_layers [] []).
  - reflexivity.
  - intros name layer_id [[= <- <-] | [[= <- <-] | []]];
      (split; [discriminate | vm_compute; lia]).
Defined.

(** Witness of [target_year_month_next]: December 2025. *)
Lemma target_year_month_next_witness :
  target_year_month 2025 12 = (2026%Z, 1%Z).
Proof.
  exact (proj2 (proj2 (target_year_month_next 2025 12 ltac:(lia))) eq_refl).
Defined.


(** Witness of [etl_script_ignores_date]. *)
Lemma etl_script_ignores_date_witness :
  etl_script one_shot_ok env_ibm 2025 12 0 no_json_files
  = etl_script one_shot_ok env_ibm 2022 4 0 no_json_files.
Proof.
  exact (etl_script_ignores_date Point nat one_shot_ok
           env_ibm env_ibm 2025 12 2022 4 0 no_json_files eq_refl).
Defined.

(** Witness of [etl_script_fetches_first]: with the connection variable
    set the script ends on the missing name, after the file has been
    written. *)
Lemma etl_script_fetches_first_witness :
  exists files',
    files' "schools.geojson"
    = Some {| d_features := Some (sample_records 76); d_crs := None |}
    /\ etl_script one_shot_ok env_ibm 2025 12 0 no_json_files
       = (AttributeError "monarch_etl_multi_day_scan", 1, files').
Proof.
  destruct (proj2 (etl_script_fetches_first Point nat one_shot_ok
                     env_ibm 2025 12 0 no_json_files)
              {| d_features := Some (sample_records 76); d_crs := None |}
              1 eq_refl)
    as (files' & Hfile & _ & _ & Hattr).
  exists files'. split; [exact Hfile |].
  apply (Hattr "postgresql://etl@db/buildings"); [reflexivity | discriminate].
Defined.

(** Witness of [transform_with_normalizes_keys], with the lower-casing of
    ASCII labels. *)
Lemma transform_with_normalizes_keys_witness :
  columns (transform_with str_lower swap_axes schools_raw "schools")
  = ["school_name"; "enrollment"; "city"; "facility_category";
     "facility_type"]
  /\ normalize_key_with str_lower "School Name" = "school_name".
Proof.
  pose proof (transform_with_normalizes_keys Point str_lower
                (fun s _ => eq_refl) swap_axes schools_raw "schools") as H.
  destruct H as (Hcols & _ & _ & _ & _ & _ & _ & Hex).
  split; [rewrite Hcols; reflexivity | exact Hex].
Defined.

(** Witness of [normalize_key_with_plain]. *)
Lemma normalize_key_with_plain_witness :
  str_forallb no_separator (normalize_key_with str_lower "Grades K-12") = true
  /\ String.length (normalize_key_with str_lower "Grades K-12")
     = String.length "Grades K-12".
Proof.
  destruct (normalize_key_with_plain str_lower (fun s _ => eq_refl)
              "Grades K-12") as [Hsep Hascii].
  split; [exact Hsep |].
  exact (proj1 (proj2 (Hascii eq_refl))).
Defined.

(** Witness of [main_io_outcomes]: the container rejects the layer
    ["colleges"]; the files of the schools and the GeoJSON file of the
    colleges are there all the same. *)
Lemma main_io_outcomes_witness :
  exists all_layers c done gdf rest,
    dict_set "education_all" c all_layers = done ++ ("colleges", gdf) :: rest
    /\ snd (main_io colleges_layer_rejected swap_axes
                    (paged_get sample_records None) two_layers 3 [] empty_fs)
       = to_file_geojson (geojson_path "colleges") gdf
                         (load_outputs done empty_fs).
Proof.
  destruct (proj1 (proj2
              (main_io_outcomes Point colleges_layer_rejected swap_axes _
                 (paged_get sample_records None) two_layers 3 []
                 (snd (fst (main_io colleges_layer_rejected swap_axes
                                    (paged_get sample_records None)
                                    two_layers 3 [] empty_fs)))
                 empty_fs
                 (snd (main_io colleges_layer_rejected swap_axes
                               (paged_get sample_records None)
                               two_layers 3 [] empty_fs))
                 (WriteFailed gpkg_path (Some "colleges"))
                 ltac:(vm_compute; reflexivity)))
              gpkg_path (Some "colleges") eq_refl)
    as (all_layers & c & done & name & gdf & rest & _ & _ & Hsplit & Hfs).
  destruct Hfs as [(_ & Hl & _) | (_ & Hl & Hfs)]; [discriminate Hl |].
  injection Hl as <-.
  exists all_layers, c, done, gdf, rest. split; [exact Hsplit | exact Hfs].
Defined.

(** The same run, computed: the write of the layer fails and the three
    earlier files exist. *)
Lemma main_io_partial_output :
  let out := main_io colleges_layer_rejected swap_axes
                     (paged_get sample_records None) two_layers 3 []
                     empty_fs in
  fst (fst out) = WriteFailed gpkg_path (Some "colleges")
  /\ file_at (snd out) (geojson_path "schools")
     = Some (GeoJSONFile (transform swap_axes (sample_raw 76) "schools"))
  /\ file_at (snd out) (geojson_path "colleges")
     = Some (GeoJSONFile (transform swap_axes (sample_raw 74) "colleges"))
  /\ file_at (snd out) gpkg_path
     = Some (GPKGFile [("schools",
                        transform swap_axes (sample_raw 76) "schools")])
  /\ file_at (snd out) (geojson_path "education_all") = None.
Proof. cbn zeta. repeat split; vm_compute; reflexivity. Qed.
